(** * White Bear Editor: directory loading and image SEO self-checks

    A shallow embedding of [Tools/DirectoryLoader.py] and
    [Tools/Document/BaseImage.py].

    Python objects that are mutated and shared (the loader's two
    dictionaries, which every article document also points to) live in an
    explicit store of dictionaries addressed by references.  Calls into the
    operating system and into lxml are oracles collected in a record, one
    field per function the source calls.  Exceptions are values of a sum
    type; a raised exception keeps every mutation made before it, as in
    Python.

    Python strings are modelled by [string]; [len] is [String.length]. *)

From Stdlib Require Import ZArith Lia Ascii String.
From stdpp Require Import base option gmap strings list fin_maps.

Open Scope string_scope.
Open Scope list_scope.

(** ** Python string and path primitives *)

Module Py.

(** The character [chr(10)], written as a backslash escape in the source. *)
Definition newline : string := String (Ascii.ascii_of_nat 10) EmptyString.

(** [needle in hay] on strings. *)
Fixpoint str_in (needle hay : string) : bool :=
  if String.prefix needle hay then true
  else match hay with
       | EmptyString => false
       | String _ t => str_in needle t
       end.

Definition starts_with_slash (s : string) : bool :=
  match s with
  | String c _ => Ascii.eqb c "/"%char
  | EmptyString => false
  end.

Fixpoint ends_with_slash (s : string) : bool :=
  match s with
  | EmptyString => false
  | String c EmptyString => Ascii.eqb c "/"%char
  | String _ t => ends_with_slash t
  end.

(** [posixpath.join(a, b)]: an absolute [b] discards [a]; otherwise the
    two are glued with one separator unless [a] is empty or already ends
    with one. *)
Definition os_path_join (a b : string) : string :=
  if starts_with_slash b then b
  else if String.eqb a EmptyString then b
  else if ends_with_slash a then a +:+ b
  else a +:+ "/" +:+ b.

(** [posixpath.basename(p)]: what follows the last separator. *)
Fixpoint basename_from (acc p : string) : string :=
  match p with
  | EmptyString => acc
  | String c t =>
      if Ascii.eqb c "/"%char then basename_from EmptyString t
      else basename_from (acc +:+ String c EmptyString) t
  end.

Definition os_path_basename (p : string) : string := basename_from EmptyString p.

Lemma prefix_refl (n : string) : String.prefix n n = true.
Proof.
  induction n as [|c n IH]; [done|].
  cbn [String.prefix]. by destruct (Ascii.ascii_dec c c).
Qed.

Lemma str_in_refl (n : string) : str_in n n = true.
Proof. destruct n; cbn [str_in]; by rewrite prefix_refl. Qed.

(** A string occurs in whatever is put in front of it. *)
Lemma str_in_append_l (n a x : string) :
  str_in n x = true -> str_in n (a +:+ x) = true.
Proof.
  intros Hx. induction a as [|c a IH]; [exact Hx|].
  change (String c a +:+ x) with (String c (a +:+ x)).
  cbn [str_in]. rewrite IH. by destruct (String.prefix _ _).
Qed.

End Py.

(** ** The loader *)

Module DirectoryLoader.
Import Py.

(** References to dictionary objects in the store. *)
Definition ref := positive.

(** [WhitebearDocument.TYPE_*]. *)
Inductive DocType := TYPE_INDEX | TYPE_MENU | TYPE_ARTICLE.

(** Modelled from the spec: the class [WhitebearDocument] of
    [Tools/Document/WhitebearDocumentArticle.py] is not among the sources;
    the loader only calls its constructor with four arguments.  Per the
    data model a document holds its file name, its full path, its role and,
    for articles, a reference to the menu collection ([None] otherwise). *)
Record WhitebearDocument := mk_WhitebearDocument {
  doc_filename : string;
  doc_full_path : string;
  doc_type : DocType;
  doc_menus : option ref
}.

(** The exceptions the loader raises or lets through. *)
Inductive Exception :=
  | AccessException (message : string)
  | FileNotFoundError (message : string)
  | IndexError (message : string)
  | UnrecognizedFileException (message : string)
  | XMLSyntaxError (message : string)
  | OSError (message : string)
  | ValueError (message : string).

Definition message_of (e : Exception) : string :=
  match e with
  | AccessException m | FileNotFoundError m | IndexError m
  | UnrecognizedFileException m | XMLSyntaxError m | OSError m
  | ValueError m => m
  end.

(** Exception classes, for comparing kinds without the message. *)
Inductive ExceptionKind :=
  | KAccess | KFileNotFound | KIndex | KUnrecognizedFile | KXMLSyntax | KOS
  | KValue.

Definition kind_of (e : Exception) : ExceptionKind :=
  match e with
  | AccessException _ => KAccess
  | FileNotFoundError _ => KFileNotFound
  | IndexError _ => KIndex
  | UnrecognizedFileException _ => KUnrecognizedFile
  | XMLSyntaxError _ => KXMLSyntax
  | OSError _ => KOS
  | ValueError _ => KValue
  end.

Inductive AccessMode := R_OK | W_OK.

Inductive SchemaName := schema_index | schema_article | schema_menu.

(** [Constants.Strings] is not among the sources: the messages the loader
    uses are taken as parameters. *)
Record StringConstants := {
  exception_access : string;
  exception_index : string;
  exception_not_white_bear : string;
  exception_html_syntax_error : string;
  exception_access_html : string;
  exception_file_unrecognized : string
}.

(** How a call ends: with a value or with an exception. *)
Inductive Outcome (A : Type) :=
  | Return (a : A)
  | Raise (e : Exception).
Arguments Return {A} a.
Arguments Raise {A} e.

Section Loader.

(** Parsed documents, as returned by [lxml.html.parse]. *)
Variable XmlDoc : Type.

(** A compiled [etree.XMLSchema]: its verdict on a document and the text of
    the error log that validating the document leaves behind. *)
Record XMLSchema := {
  schema_validate : XmlDoc -> bool;
  schema_error_log : XmlDoc -> string
}.

(** What [html.parse] does with a path: it returns a tree with a root
    document, raises, or, for a file with no content, returns a tree
    that has no root; [complaint] is the text of the [ValueError] lxml
    raises when such a tree is handed to a schema. *)
Inductive ParseResult :=
  | Parsed (xml_doc : XmlDoc)
  | SyntaxFailure (diagnostic : string)   (* lxml raises XMLSyntaxError *)
  | ReadFailure (diagnostic : string)     (* lxml raises OSError *)
  | ParsedRootless (complaint : string).

(** The tree [html.parse] returns. *)
Inductive ElementTree :=
  | Rooted (root : XmlDoc)
  | Rootless (complaint : string).

(** The operating system and lxml, as seen by the loader. *)
Record FileSystem := {
  os_access : string -> AccessMode -> bool;
  os_path_exists : string -> bool;
  os_path_isfile : string -> bool;
  os_path_realpath : string -> string;
  glob_glob : string -> list string;
  html_parse : string -> ParseResult
}.

(** The attributes of one [DirectoryLoader] instance. *)
Record Loader := {
  _directory_path : string;
  _article_documents : ref;
  _menu_documents : ref;
  _index_document : option WhitebearDocument;
  xmlschema_index : XMLSchema;
  xmlschema_article : XMLSchema;
  xmlschema_menu : XMLSchema
}.

(** The program state: the loader object, the store of dictionaries, the
    [validate] calls made so far (oldest first; a schema's [error_log] is
    that of its latest call) and what was printed. *)
Record State := {
  self : Loader;
  heap : gmap ref (gmap string WhitebearDocument);
  validations : list (SchemaName * XmlDoc);
  stdout : list string
}.

(** Computations that read and update the state and may raise. *)
Definition M (A : Type) : Type := State -> Outcome A * State.

Definition ret {A} (a : A) : M A := fun s => (Return a, s).

Definition bind {A B} (m : M A) (k : A -> M B) : M B :=
  fun s => match m s with
           | (Return a, s') => k a s'
           | (Raise e, s') => (Raise e, s')
           end.

Definition raise {A} (e : Exception) : M A := fun s => (Raise e, s).

Definition gets {A} (f : State -> A) : M A := fun s => (Return (f s), s).

Definition modify (f : State -> State) : M unit := fun s => (Return tt, f s).

(** [try: body except XMLSyntaxError as e: handler(str(e))]; every other
    exception passes through. *)
Definition try_except_XMLSyntaxError {A} (body : M A) (handler : string -> M A) : M A :=
  fun s => match body s with
           | (Raise (XMLSyntaxError m), s') => handler m s'
           | r => r
           end.

(** [for x in l: body(x)]; the first exception ends the loop. *)
Fixpoint for_each {A} (l : list A) (body : A -> M unit) : M unit :=
  match l with
  | [] => ret tt
  | x :: l' => bind (body x) (fun _ => for_each l' body)
  end.

Declare Scope py_scope.
Delimit Scope py_scope with py.
Notation "x <- m ;; k" := (bind m (fun x => k))
  (at level 100, m at next level, right associativity) : py_scope.
Notation "m ;;; k" := (bind m (fun _ => k))
  (at level 100, right associativity) : py_scope.
Local Open Scope py_scope.

Variable Strings : StringConstants.

(** *** [__init__]

    The two dictionaries are new objects in the store; the three schemas
    are compiled from the resources [Fetch] locates, here an oracle from
    resource name to schema. *)
Definition new_dict (h : gmap ref (gmap string WhitebearDocument)) : ref :=
  fresh (dom h).

Definition __init__ (Fetch_schema : string -> XMLSchema)
    (h : gmap ref (gmap string WhitebearDocument)) : State :=
  let articles := new_dict h in
  let h1 := <[articles := ∅]> h in
  let menus := new_dict h1 in
  let h2 := <[menus := ∅]> h1 in
  {| self := {| _directory_path := EmptyString;
                _article_documents := articles;
                _menu_documents := menus;
                _index_document := None;
                xmlschema_index := Fetch_schema "schema_index.xsd";
                xmlschema_article := Fetch_schema "schema_article.xsd";
                xmlschema_menu := Fetch_schema "schema_menu.xsd" |};
     heap := h2;
     validations := [];
     stdout := [] |}.

(** *** Accessors *)

Definition get_directory (s : State) : string := _directory_path (self s).

Definition get_articles (s : State) : ref := _article_documents (self s).

Definition get_menus (s : State) : ref := _menu_documents (self s).

Definition get_index_page (s : State) : option WhitebearDocument :=
  _index_document (self s).

(** The contents of a dictionary object; the empty dictionary stands in
    for a reference that was never allocated. *)
Definition deref (s : State) (r : ref) : gmap string WhitebearDocument :=
  default ∅ (heap s !! r).

(** *** Attribute and dictionary updates *)

Definition set_directory_path (p : string) (l : Loader) : Loader :=
  {| _directory_path := p;
     _article_documents := _article_documents l;
     _menu_documents := _menu_documents l;
     _index_document := _index_document l;
     xmlschema_index := xmlschema_index l;
     xmlschema_article := xmlschema_article l;
     xmlschema_menu := xmlschema_menu l |}.

Definition set_index_document (d : WhitebearDocument) (l : Loader) : Loader :=
  {| _directory_path := _directory_path l;
     _article_documents := _article_documents l;
     _menu_documents := _menu_documents l;
     _index_document := Some d;
     xmlschema_index := xmlschema_index l;
     xmlschema_article := xmlschema_article l;
     xmlschema_menu := xmlschema_menu l |}.

Definition with_self (f : Loader -> Loader) (s : State) : State :=
  {| self := f (self s); heap := heap s;
     validations := validations s; stdout := stdout s |}.

(** [d[key] = value] on the dictionary object [r]. *)
Definition dict_setitem (r : ref) (key : string) (value : WhitebearDocument)
    (s : State) : State :=
  {| self := self s; heap := alter (insert key value) r (heap s);
     validations := validations s; stdout := stdout s |}.

Definition schema_of (l : Loader) (n : SchemaName) : XMLSchema :=
  match n with
  | schema_index => xmlschema_index l
  | schema_article => xmlschema_article l
  | schema_menu => xmlschema_menu l
  end.

(** [self.xmlschema_<n>.validate(xml_doc)]: the verdict on a tree with a
    root; on a tree without one lxml raises [ValueError] before it
    validates anything. *)
Definition validate (n : SchemaName) (xml_doc : ElementTree) : M bool :=
  match xml_doc with
  | Rooted root =>
      fun s =>
        (Return (schema_validate (schema_of (self s) n) root),
         {| self := self s; heap := heap s;
            validations := validations s ++ [(n, root)];
            stdout := stdout s |})
  | Rootless complaint => raise (ValueError complaint)
  end.

Definition SchemaName_eqb (a b : SchemaName) : bool :=
  match a, b with
  | schema_index, schema_index
  | schema_article, schema_article
  | schema_menu, schema_menu => true
  | _, _ => false
  end.

(** [str(self.xmlschema_<n>.error_log)]: the log of the schema's latest
    validation, empty before the first. *)
Definition error_log (n : SchemaName) : M string :=
  gets (fun s =>
    match last (filter (fun c => SchemaName_eqb (fst c) n = true) (validations s)) with
    | None => EmptyString
    | Some c => schema_error_log (schema_of (self s) n) (snd c)
    end).

Definition print (line : string) : M unit :=
  modify (fun s => {| self := self s; heap := heap s;
                      validations := validations s;
                      stdout := stdout s ++ [line] |}).

(** [html.parse(p)] *)
Definition parse (fs : FileSystem) (p : string) : M ElementTree :=
  match html_parse fs p with
  | Parsed xml_doc => ret (Rooted xml_doc)
  | SyntaxFailure e => raise (XMLSyntaxError e)
  | ReadFailure e => raise (OSError e)
  | ParsedRootless complaint => ret (Rootless complaint)
  end.

(** *** [_is_white_bear_directory] *)
Definition _is_white_bear_directory (fs : FileSystem) (path : string) : M bool :=
  if negb (os_access fs path R_OK) || negb (os_access fs path W_OK) then
    raise (AccessException (exception_access Strings))
  else
    (if negb (os_path_exists fs (os_path_join path "index.html")) then
       raise (FileNotFoundError (exception_index Strings +:+ " " +:+ path))
     else
       try_except_XMLSyntaxError
         (xml_doc <- parse fs (os_path_join path "index.html") ;;
          ok <- validate schema_index xml_doc ;;
          if negb ok then
            (log <- error_log schema_index ;;
             raise (IndexError (exception_not_white_bear Strings +:+ newline +:+ log)))
          else ret tt)
         (fun e => raise (IndexError (exception_html_syntax_error Strings +:+ newline +:+ e))))
    ;;; ret true.

(** *** [_prepare_documents] *)

(** The body of the loop, for one name yielded by [glob.glob]. *)
Definition _prepare_documents_file (fs : FileSystem) (path file : string) : M unit :=
  let file := os_path_join path file in
  if os_path_isfile fs file then
    if negb (os_access fs file R_OK) || negb (os_access fs file W_OK) then
      raise (AccessException (exception_access_html Strings +:+ " " +:+ file))
    else
      let filename := os_path_basename file in
      let file_path := os_path_realpath fs file in
      try_except_XMLSyntaxError
        (xml_doc <- parse fs (os_path_join path file) ;;
         is_article <- validate schema_article xml_doc ;;
         if is_article then
           (articles <- gets get_articles ;;
            menus <- gets get_menus ;;
            modify (dict_setitem articles filename
                      (mk_WhitebearDocument filename file_path TYPE_ARTICLE (Some menus))))
         else
           (is_menu <- validate schema_menu xml_doc ;;
            if is_menu then
              (menus <- gets get_menus ;;
               modify (dict_setitem menus filename
                         (mk_WhitebearDocument filename file_path TYPE_MENU None)))
            else
              (is_index <- validate schema_index xml_doc ;;
               if is_index then
                 modify (with_self (set_index_document
                           (mk_WhitebearDocument filename file_path TYPE_INDEX None)))
               else
                 (* Skip known non editable files *)
                 if str_in "google" filename || str_in "404" filename then
                   ret tt
                 else
                   (log <- error_log schema_article ;;
                    print log ;;;
                    raise (UnrecognizedFileException
                             (exception_file_unrecognized Strings +:+ " " +:+ filename))))))
        (fun e => raise (UnrecognizedFileException
                           (exception_html_syntax_error Strings +:+ newline +:+ e)))
  else ret tt.

Definition _prepare_documents (fs : FileSystem) (path : string) : M unit :=
  for_each (glob_glob fs (path +:+ "/*.html")) (_prepare_documents_file fs path).

(** *** [load_directory] *)
Definition load_directory (fs : FileSystem) (directory_path : string) : M unit :=
  modify (with_self (set_directory_path directory_path)) ;;;
  path <- gets get_directory ;;
  is_wb <- _is_white_bear_directory fs path ;;
  if is_wb then
    (path <- gets get_directory ;;
     _prepare_documents fs path)
  else ret tt.

(** ** Properties of the loader *)

(** The state after the listed schemas were asked about [xml_doc], in
    that order. *)
Definition validated (ns : list SchemaName) (xml_doc : XmlDoc) (s : State) : State :=
  {| self := self s; heap := heap s;
     validations := validations s ++ List.map (fun n => (n, xml_doc)) ns;
     stdout := stdout s |}.

Definition printed (line : string) (s : State) : State :=
  {| self := self s; heap := heap s;
     validations := validations s; stdout := stdout s ++ [line] |}.

(** The name under which the loop files the document read from [file]. *)
Definition filename_of (path file : string) : string :=
  os_path_basename (os_path_join path file).

(** The document the loop builds for [file] in role [t]. *)
Definition document_of (fs : FileSystem) (path file : string) (t : DocType)
    (menus : option ref) : WhitebearDocument :=
  mk_WhitebearDocument (filename_of path file)
    (os_path_realpath fs (os_path_join path file)) t menus.

(** A file that the loop opens: a regular file, readable and writable. *)
Definition opened (fs : FileSystem) (path file : string) : Prop :=
  os_path_isfile fs (os_path_join path file) = true /\
  os_access fs (os_path_join path file) R_OK = true /\
  os_access fs (os_path_join path file) W_OK = true.

(** What the loop parses for [file]: the source joins the directory to
    the already joined name once more. *)
Definition parsed_as (fs : FileSystem) (path file : string) : ParseResult :=
  html_parse fs (os_path_join path (os_path_join path file)).

Lemma bind_run {A B} (m : M A) (k : A -> M B) (s s' : State) (a : A) :
  m s = (Return a, s') -> bind m k s = k a s'.
Proof. unfold bind. by intros ->. Qed.

Lemma bind_raise {A B} (m : M A) (k : A -> M B) (s s' : State) (e : Exception) :
  m s = (Raise e, s') -> bind m k s = (Raise e, s').
Proof. unfold bind. by intros ->. Qed.

Lemma last_filter_snoc {A} (P : A -> Prop) `{!forall x, Decision (P x)} (l : list A) (x : A) :
  P x -> last (filter P (l ++ [x])) = Some x.
Proof.
  intros HP. rewrite filter_app, filter_cons, decide_True by done.
  rewrite filter_nil. apply last_snoc.
Qed.

Lemma error_log_after_validate (n : SchemaName) (xml_doc : XmlDoc) (s : State) :
  error_log n (validated [n] xml_doc s)
  = (Return (schema_error_log (schema_of (self s) n) xml_doc), validated [n] xml_doc s).
Proof.
  unfold error_log, gets, validated; cbn [validations self List.map].
  rewrite last_filter_snoc; [reflexivity | by destruct n].
Qed.

(** Validations by other schemas do not touch a schema's log. *)
Lemma error_log_after_validate_more (n : SchemaName) (ms : list SchemaName)
    (xml_doc : XmlDoc) (s : State) :
  (forall m, m ∈ ms -> m <> n) ->
  error_log n (validated ms xml_doc (validated [n] xml_doc s))
  = (Return (schema_error_log (schema_of (self s) n) xml_doc),
     validated ms xml_doc (validated [n] xml_doc s)).
Proof.
  intros Hms. unfold error_log, gets. f_equal.
  cbn [validated validations self List.map].
  rewrite filter_app.
  replace (filter _ (List.map _ ms)) with (@nil (SchemaName * XmlDoc)).
  { rewrite app_nil_r. by rewrite last_filter_snoc by (by destruct n). }
  symmetry. induction ms as [|m ms IH]; [done|].
  cbn [List.map]. rewrite filter_cons, decide_False.
  - apply IH. intros m' Hm'. apply Hms. by right.
  - cbn. specialize (Hms m (list_elem_of_here _ _)). by destruct m, n.
Qed.

Lemma validated_app (ns ms : list SchemaName) (xml_doc : XmlDoc) (s : State) :
  validated ms xml_doc (validated ns xml_doc s) = validated (ns ++ ms) xml_doc s.
Proof.
  unfold validated; cbn. by rewrite List.map_app, app_assoc.
Qed.

Lemma validate_run (n : SchemaName) (xml_doc : XmlDoc) (s : State) :
  validate n (Rooted xml_doc) s
  = (Return (schema_validate (schema_of (self s) n) xml_doc), validated [n] xml_doc s).
Proof. reflexivity. Qed.

(** The loop body on a file that is opened and parses, by cases on the
    verdicts of the three schemas. *)
Lemma _prepare_documents_file_parsed fs path file xml_doc s :
  opened fs path file ->
  parsed_as fs path file = Parsed xml_doc ->
  _prepare_documents_file fs path file s =
    if schema_validate (xmlschema_article (self s)) xml_doc then
      (Return tt,
       dict_setitem (get_articles s) (filename_of path file)
         (document_of fs path file TYPE_ARTICLE (Some (get_menus s)))
         (validated [schema_article] xml_doc s))
    else if schema_validate (xmlschema_menu (self s)) xml_doc then
      (Return tt,
       dict_setitem (get_menus s) (filename_of path file)
         (document_of fs path file TYPE_MENU None)
         (validated [schema_article; schema_menu] xml_doc s))
    else if schema_validate (xmlschema_index (self s)) xml_doc then
      (Return tt,
       with_self (set_index_document (document_of fs path file TYPE_INDEX None))
         (validated [schema_article; schema_menu; schema_index] xml_doc s))
    else if str_in "google" (filename_of path file) || str_in "404" (filename_of path file) then
      (Return tt, validated [schema_article; schema_menu; schema_index] xml_doc s)
    else
      (Raise (UnrecognizedFileException
                (exception_file_unrecognized Strings +:+ " " +:+ filename_of path file)),
       printed (schema_error_log (xmlschema_article (self s)) xml_doc)
         (validated [schema_article; schema_menu; schema_index] xml_doc s)).
Proof.
  intros (Hfile & Hr & Hw) Hparse. unfold parsed_as in Hparse.
  unfold _prepare_documents_file. rewrite Hfile, Hr, Hw. cbn [negb orb].
  fold (filename_of path file).
  unfold try_except_XMLSyntaxError.
  erewrite bind_run by (unfold parse; rewrite Hparse; reflexivity).
  erewrite bind_run by apply validate_run. cbn [schema_of].
  destruct (schema_validate (xmlschema_article (self s)) xml_doc) eqn:HA.
  { reflexivity. }
  erewrite bind_run by apply validate_run. rewrite validated_app. cbn [schema_of validated self app].
  destruct (schema_validate (xmlschema_menu (self s)) xml_doc) eqn:HM.
  { reflexivity. }
  erewrite bind_run by apply validate_run. rewrite validated_app. cbn [schema_of validated self app].
  destruct (schema_validate (xmlschema_index (self s)) xml_doc) eqn:HI.
  { reflexivity. }
  destruct (str_in "google" (filename_of path file) || str_in "404" (filename_of path file)).
  { reflexivity. }
  change [schema_article; schema_menu; schema_index]
    with ([schema_article] ++ [schema_menu; schema_index]).
  rewrite <- validated_app.
  erewrite bind_run
    by (apply error_log_after_validate_more;
        intros m [->|[->|[]%elem_of_nil]%elem_of_cons]%elem_of_cons; done).
  reflexivity.
Qed.

Lemma _prepare_documents_file_not_a_file fs path file s :
  os_path_isfile fs (os_path_join path file) = false ->
  _prepare_documents_file fs path file s = (Return tt, s).
Proof. intros H. unfold _prepare_documents_file. by rewrite H. Qed.

Lemma _prepare_documents_file_no_access fs path file s :
  os_path_isfile fs (os_path_join path file) = true ->
  os_access fs (os_path_join path file) R_OK = false \/
  os_access fs (os_path_join path file) W_OK = false ->
  _prepare_documents_file fs path file s =
    (Raise (AccessException
              (exception_access_html Strings +:+ " " +:+ os_path_join path file)), s).
Proof.
  intros Hfile Hacc. unfold _prepare_documents_file. rewrite Hfile.
  replace (negb _ || negb _) with true; [reflexivity|].
  destruct Hacc as [-> | ->]; [done|]. cbn. by rewrite orb_true_r.
Qed.

Lemma _prepare_documents_file_syntax fs path file e s :
  opened fs path file ->
  parsed_as fs path file = SyntaxFailure e ->
  _prepare_documents_file fs path file s =
    (Raise (UnrecognizedFileException
              (exception_html_syntax_error Strings +:+ newline +:+ e)), s).
Proof.
  intros (Hfile & Hr & Hw) Hparse. unfold parsed_as in Hparse.
  unfold _prepare_documents_file. rewrite Hfile, Hr, Hw. cbn [negb orb].
  unfold try_except_XMLSyntaxError.
  erewrite bind_raise by (unfold parse; rewrite Hparse; reflexivity).
  reflexivity.
Qed.

Lemma _prepare_documents_file_unreadable fs path file e s :
  opened fs path file ->
  parsed_as fs path file = ReadFailure e ->
  _prepare_documents_file fs path file s = (Raise (OSError e), s).
Proof.
  intros (Hfile & Hr & Hw) Hparse. unfold parsed_as in Hparse.
  unfold _prepare_documents_file. rewrite Hfile, Hr, Hw. cbn [negb orb].
  unfold try_except_XMLSyntaxError.
  erewrite bind_raise by (unfold parse; rewrite Hparse; reflexivity).
  reflexivity.
Qed.

(** A file without content: [html.parse] returns a tree without a root,
    and the first [validate] raises [ValueError], which the [except]
    clause does not catch. *)
Lemma _prepare_documents_file_rootless fs path file complaint s :
  opened fs path file ->
  parsed_as fs path file = ParsedRootless complaint ->
  _prepare_documents_file fs path file s = (Raise (ValueError complaint), s).
Proof.
  intros (Hfile & Hr & Hw) Hparse. unfold parsed_as in Hparse.
  unfold _prepare_documents_file. rewrite Hfile, Hr, Hw. cbn [negb orb].
  unfold try_except_XMLSyntaxError.
  erewrite bind_run by (unfold parse; rewrite Hparse; reflexivity).
  erewrite bind_raise by reflexivity.
  reflexivity.
Qed.

(** The loop over a listing split in two. *)
Lemma for_each_app {A} (l1 l2 : list A) (body : A -> M unit) (s : State) :
  for_each (l1 ++ l2) body s =
    match for_each l1 body s with
    | (Return _, s') => for_each l2 body s'
    | (Raise e, s') => (Raise e, s')
    end.
Proof.
  revert s. induction l1 as [|x l1 IH]; intros s; [reflexivity|].
  cbn [app for_each]. unfold bind.
  destruct (body x s) as [[[]|e] s']; [apply IH | reflexivity].
Qed.

(** The loop stops at the first file whose body raises. *)
Lemma for_each_raise {A} (l1 l2 : list A) (x : A) (body : A -> M unit)
    (s s1 s2 : State) (e : Exception) :
  for_each l1 body s = (Return tt, s1) ->
  body x s1 = (Raise e, s2) ->
  for_each (l1 ++ x :: l2) body s = (Raise e, s2).
Proof.
  intros H1 Hx. rewrite for_each_app, H1. cbn [for_each].
  by erewrite bind_raise.
Qed.

(** The directory gate, by cases. *)
Lemma _is_white_bear_directory_run fs path s :
  _is_white_bear_directory fs path s =
    if negb (os_access fs path R_OK) || negb (os_access fs path W_OK) then
      (Raise (AccessException (exception_access Strings)), s)
    else if negb (os_path_exists fs (os_path_join path "index.html")) then
      (Raise (FileNotFoundError (exception_index Strings +:+ " " +:+ path)), s)
    else
      match html_parse fs (os_path_join path "index.html") with
      | Parsed xml_doc =>
          if schema_validate (xmlschema_index (self s)) xml_doc then
            (Return true, validated [schema_index] xml_doc s)
          else
            (Raise (IndexError
                      (exception_not_white_bear Strings +:+ newline +:+
                       schema_error_log (xmlschema_index (self s)) xml_doc)),
             validated [schema_index] xml_doc s)
      | SyntaxFailure e =>
          (Raise (IndexError (exception_html_syntax_error Strings +:+ newline +:+ e)), s)
      | ReadFailure e => (Raise (OSError e), s)
      | ParsedRootless complaint => (Raise (ValueError complaint), s)
      end.
Proof.
  unfold _is_white_bear_directory.
  destruct (negb _ || negb _); [reflexivity|].
  destruct (negb (os_path_exists _ _)); [reflexivity|].
  unfold bind at 1, try_except_XMLSyntaxError, parse.
  destruct (html_parse fs (os_path_join path "index.html")) as [xml_doc|e|e|e].
  - erewrite bind_run by reflexivity.
    erewrite bind_run by apply validate_run. cbn [schema_of].
    destruct (schema_validate (xmlschema_index (self s)) xml_doc); cbn [negb].
    + reflexivity.
    + erewrite bind_run by apply error_log_after_validate. reflexivity.
  - reflexivity.
  - reflexivity.
  - erewrite bind_run by reflexivity.
    erewrite bind_raise by reflexivity. reflexivity.
Qed.

(** The gate leaves the loader's attributes and the store alone. *)
Lemma _is_white_bear_directory_frame fs path s :
  self (snd (_is_white_bear_directory fs path s)) = self s /\
  heap (snd (_is_white_bear_directory fs path s)) = heap s.
Proof.
  rewrite _is_white_bear_directory_run.
  repeat match goal with |- context [if ?b then _ else _] => destruct b end;
    try done.
  destruct (html_parse _ _); [|done..].
  by destruct (schema_validate _ _).
Qed.

(** [load_directory] is the assignment, then the gate, then the loop. *)
Lemma load_directory_run fs directory_path s :
  load_directory fs directory_path s =
    match _is_white_bear_directory fs directory_path
            (with_self (set_directory_path directory_path) s) with
    | (Return true, s1) => _prepare_documents fs directory_path s1
    | (Return false, s1) => (Return tt, s1)
    | (Raise e, s1) => (Raise e, s1)
    end.
Proof.
  unfold load_directory.
  erewrite bind_run by reflexivity. erewrite bind_run by reflexivity.
  cbn [get_directory with_self self set_directory_path _directory_path].
  unfold bind at 1.
  pose proof (_is_white_bear_directory_frame fs directory_path
                (with_self (set_directory_path directory_path) s)) as [Hself _].
  destruct (_is_white_bear_directory _ _ _) as [[[]|e] s1]; try reflexivity.
  cbn [snd] in Hself. erewrite bind_run by reflexivity.
  unfold get_directory. by rewrite Hself.
Qed.

(** *** What a pass can change *)

(** The four ways the loop body leaves the loader and the store: as they
    were, with one article filed, with one menu filed, or with the index
    document replaced. *)
Inductive file_effect (fs : FileSystem) (path file : string) (s s' : State) : Prop :=
  | effect_none :
      self s' = self s -> heap s' = heap s -> file_effect fs path file s s'
  | effect_article :
      self s' = self s ->
      heap s' = alter (insert (filename_of path file)
                         (document_of fs path file TYPE_ARTICLE (Some (get_menus s))))
                  (get_articles s) (heap s) ->
      file_effect fs path file s s'
  | effect_menu :
      self s' = self s ->
      heap s' = alter (insert (filename_of path file)
                         (document_of fs path file TYPE_MENU None))
                  (get_menus s) (heap s) ->
      file_effect fs path file s s'
  | effect_index :
      self s' = set_index_document (document_of fs path file TYPE_INDEX None) (self s) ->
      heap s' = heap s -> file_effect fs path file s s'.

Lemma _prepare_documents_file_effect fs path file s :
  file_effect fs path file s (snd (_prepare_documents_file fs path file s)).
Proof.
  destruct (os_path_isfile fs (os_path_join path file)) eqn:Hfile.
  2:{ rewrite _prepare_documents_file_not_a_file by done. by constructor 1. }
  destruct (os_access fs (os_path_join path file) R_OK) eqn:Hr.
  2:{ rewrite _prepare_documents_file_no_access by auto. by constructor 1. }
  destruct (os_access fs (os_path_join path file) W_OK) eqn:Hw.
  2:{ rewrite _prepare_documents_file_no_access by auto. by constructor 1. }
  assert (opened fs path file) as Hopen by done.
  destruct (parsed_as fs path file) as [xml_doc|e|e|e] eqn:Hparse.
  - rewrite (_prepare_documents_file_parsed _ _ _ _ _ Hopen Hparse).
    destruct (schema_validate (xmlschema_article _) _); [by constructor 2|].
    destruct (schema_validate (xmlschema_menu _) _); [by constructor 3|].
    destruct (schema_validate (xmlschema_index _) _); [by constructor 4|].
    destruct (_ || _); by constructor 1.
  - rewrite (_prepare_documents_file_syntax _ _ _ _ _ Hopen Hparse). by constructor 1.
  - rewrite (_prepare_documents_file_unreadable _ _ _ _ _ Hopen Hparse). by constructor 1.
  - rewrite (_prepare_documents_file_rootless _ _ _ _ _ Hopen Hparse). by constructor 1.
Qed.

(** Attributes no pass assigns after [load_directory] stored the path. *)
Definition same_loader (s s' : State) : Prop :=
  get_directory s' = get_directory s /\
  get_articles s' = get_articles s /\
  get_menus s' = get_menus s.

(** [s'] holds every entry of [s], except that entries under the keys in
    [names] may have been replaced or added, and an index document, once
    set, stays set. *)
Record grows (names : list string) (s s' : State) : Prop := {
  grows_keep : forall r k d,
    deref s r !! k = Some d -> k ∉ names -> deref s' r !! k = Some d;
  grows_dom : forall r k, is_Some (deref s r !! k) -> is_Some (deref s' r !! k);
  grows_new : forall r k,
    is_Some (deref s' r !! k) -> is_Some (deref s r !! k) \/ k ∈ names;
  grows_index : is_Some (get_index_page s) -> is_Some (get_index_page s')
}.

Lemma deref_same_heap s s' r : heap s' = heap s -> deref s' r = deref s r.
Proof. unfold deref. by intros ->. Qed.

Lemma lookup_deref_setitem s s' r k v r' k' :
  heap s' = alter (insert k v) r (heap s) ->
  deref s' r' !! k' =
    if decide (r = r' /\ k = k' /\ is_Some (heap s !! r)) then Some v
    else deref s r' !! k'.
Proof.
  intros Hheap. unfold deref. rewrite Hheap, lookup_alter.
  destruct (decide (r = r')) as [<-|Hne].
  - destruct (heap s !! r) as [d|] eqn:Hd; cbn.
    + rewrite lookup_insert. destruct (decide (k = k')) as [<-|Hk].
      * rewrite decide_True; [done|]. by eauto.
      * rewrite decide_False; [done|]. by intros (_ & ? & _).
    + rewrite decide_False; [done|]. by intros (_ & _ & [? ?]).
  - rewrite decide_False; [done|]. by intros (? & _).
Qed.

Lemma grows_refl names s : grows names s s.
Proof. split; auto. Qed.

Lemma grows_same names s s' :
  get_index_page s' = get_index_page s -> heap s' = heap s -> grows names s s'.
Proof.
  intros Hindex Hheap.
  split; intros *; rewrite ?(deref_same_heap _ _ _ Hheap); auto.
  by rewrite Hindex.
Qed.

Lemma grows_weaken names names' s s' :
  (forall k, k ∈ names -> k ∈ names') -> grows names s s' -> grows names' s s'.
Proof.
  intros Hsub Hg. split.
  - intros r k d Hd Hnot. eapply grows_keep; eauto.
  - by apply (grows_dom _ _ _ Hg).
  - intros r k Hs. destruct (grows_new _ _ _ Hg _ _ Hs); auto.
  - by apply (grows_index _ _ _ Hg).
Qed.

Lemma grows_setitem names s s' r k v :
  self s' = self s -> heap s' = alter (insert k v) r (heap s) -> k ∈ names ->
  grows names s s'.
Proof.
  intros Hself Hheap Hk. split.
  - intros r' k' d Hd Hnot. rewrite (lookup_deref_setitem _ _ _ _ _ _ _ Hheap).
    rewrite decide_False; [done|]. intros (_ & <- & _). done.
  - intros r' k' Hd. rewrite (lookup_deref_setitem _ _ _ _ _ _ _ Hheap).
    case_decide; eauto.
  - intros r' k'. rewrite (lookup_deref_setitem _ _ _ _ _ _ _ Hheap).
    case_decide as Hc; [|by left]. destruct Hc as (_ & <- & _). by right.
  - unfold get_index_page. by rewrite Hself.
Qed.

Lemma grows_trans names1 names2 s1 s2 s3 :
  grows names1 s1 s2 -> grows names2 s2 s3 -> grows (names1 ++ names2) s1 s3.
Proof.
  intros H12 H23. split.
  - intros r k d Hd Hnot. rewrite elem_of_app in Hnot.
    eapply grows_keep; [done| |tauto]. eapply grows_keep; [done|done|tauto].
  - intros r k Hd. eapply grows_dom; [done|]. by eapply grows_dom.
  - intros r k Hd. rewrite elem_of_app.
    destruct (grows_new _ _ _ H23 _ _ Hd) as [Hd2|?]; [|tauto].
    destruct (grows_new _ _ _ H12 _ _ Hd2); tauto.
  - intros Hi. eapply grows_index; [done|]. by eapply grows_index.
Qed.

Lemma same_loader_refl s : same_loader s s.
Proof. done. Qed.

Lemma same_loader_trans s1 s2 s3 :
  same_loader s1 s2 -> same_loader s2 s3 -> same_loader s1 s3.
Proof. unfold same_loader. intros (?&?&?) (?&?&?). split_and!; congruence. Qed.

Lemma _prepare_documents_file_frame fs path file s :
  same_loader s (snd (_prepare_documents_file fs path file s)) /\
  grows [filename_of path file] s (snd (_prepare_documents_file fs path file s)).
Proof.
  destruct (_prepare_documents_file_effect fs path file s) as
    [Hself Hheap|Hself Hheap|Hself Hheap|Hself Hheap].
  - split; [|apply grows_same; [unfold get_index_page; by rewrite Hself|done]].
    unfold same_loader, get_directory, get_articles, get_menus. by rewrite Hself.
  - split; [|eapply grows_setitem; [done..|by left]].
    unfold same_loader, get_directory, get_articles, get_menus. by rewrite Hself.
  - split; [|eapply grows_setitem; [done..|by left]].
    unfold same_loader, get_directory, get_articles, get_menus. by rewrite Hself.
  - split.
    + unfold same_loader, get_directory, get_articles, get_menus. by rewrite Hself.
    + split; intros *; rewrite ?(deref_same_heap _ _ _ Hheap); auto.
      intros _. unfold get_index_page. rewrite Hself. by eexists.
Qed.

Lemma for_each_frame fs path files s :
  same_loader s (snd (for_each files (_prepare_documents_file fs path) s)) /\
  grows (List.map (filename_of path) files) s
    (snd (for_each files (_prepare_documents_file fs path) s)).
Proof.
  revert s. induction files as [|file files IH]; intros s.
  { split; [done|apply grows_refl]. }
  cbn [for_each List.map]. unfold bind.
  pose proof (_prepare_documents_file_frame fs path file s) as [Hl Hg].
  destruct (_prepare_documents_file fs path file s) as [[[]|e] s1]; cbn [snd] in *.
  - destruct (IH s1) as [Hl' Hg']. split; [by eapply same_loader_trans|].
    by apply (grows_trans [_] _ _ _ _ Hg Hg').
  - split; [done|]. apply (grows_trans [_] _ _ _ _ Hg (grows_refl _ _)).
Qed.

(** A whole [load_directory]: the path is the new one, the two
    dictionaries are the same objects, and the store only grows, under
    the names the pass enumerates. *)
Lemma load_directory_frame fs directory_path s :
  let s' := snd (load_directory fs directory_path s) in
  get_directory s' = directory_path /\
  get_articles s' = get_articles s /\
  get_menus s' = get_menus s /\
  grows (List.map (filename_of directory_path)
           (glob_glob fs (directory_path +:+ "/*.html"))) s s'.
Proof.
  cbn zeta. rewrite load_directory_run.
  set (s0 := with_self (set_directory_path directory_path) s).
  destruct (_is_white_bear_directory_frame fs directory_path s0) as [Hself Hheap].
  assert (grows [] s (snd (_is_white_bear_directory fs directory_path s0))) as Hg0.
  { apply grows_same; [unfold get_index_page; by rewrite Hself|by rewrite Hheap]. }
  destruct (_is_white_bear_directory fs directory_path s0) as [[[]|e] s1];
    cbn [snd] in *.
  - unfold _prepare_documents.
    destruct (for_each_frame fs directory_path
                (glob_glob fs (directory_path +:+ "/*.html")) s1) as [(H&H0&H1) Hg].
    unfold get_directory, get_articles, get_menus in *. rewrite Hself in *.
    split_and!; [by rewrite H|by rewrite H0|by rewrite H1|].
    apply (grows_trans [] _ _ _ _ Hg0 Hg).
  - unfold get_directory, get_articles, get_menus in *. rewrite Hself.
    split_and!; try done. eapply grows_weaken; [|done]. by intros k ?%elem_of_nil.
  - unfold get_directory, get_articles, get_menus in *. rewrite Hself.
    split_and!; try done. eapply grows_weaken; [|done]. by intros k ?%elem_of_nil.
Qed.

(** *** Where a pass stands *)

(** The pass that [load_directory] starts from [s0] on [directory_path]
    passes the gate, and its loop has gone through the files listed
    [before] without an exception and stands before [file] in state [s];
    [after] is the rest of the listing. *)
Definition reaches (fs : FileSystem) (directory_path : string) (s0 : State)
    (before : list string) (file : string) (after : list string) (s : State) : Prop :=
  glob_glob fs (directory_path +:+ "/*.html") = before ++ file :: after /\
  exists s1,
    _is_white_bear_directory fs directory_path
      (with_self (set_directory_path directory_path) s0) = (Return true, s1) /\
    for_each before (_prepare_documents_file fs directory_path) s1 = (Return tt, s).

Lemma load_directory_at fs directory_path s0 before file after s :
  reaches fs directory_path s0 before file after s ->
  load_directory fs directory_path s0 =
    bind (_prepare_documents_file fs directory_path file)
         (fun _ => for_each after (_prepare_documents_file fs directory_path)) s.
Proof.
  intros (Hglob & s1 & Hgate & Hbefore).
  rewrite load_directory_run, Hgate. unfold _prepare_documents.
  rewrite Hglob, for_each_app, Hbefore. reflexivity.
Qed.

(** The loader's menu collection as seen through a document. *)
Definition menu_references (s : State) (d : WhitebearDocument)
    : option (gmap string WhitebearDocument) :=
  deref s <$> doc_menus d.

(** The two dictionaries are different objects and every filed article
    points to the loader's menu dictionary. *)
Definition articles_share_menus (s : State) : Prop :=
  get_articles s <> get_menus s /\
  map_Forall (fun _ d => doc_menus d = Some (get_menus s)) (deref s (get_articles s)).

#[global] Instance articles_share_menus_dec s : Decision (articles_share_menus s).
Proof. unfold articles_share_menus. apply _. Defined.

Lemma articles_share_menus___init__ Fetch_schema h :
  articles_share_menus (__init__ Fetch_schema h).
Proof.
  unfold articles_share_menus, __init__, get_articles, get_menus, deref, new_dict.
  cbn [self heap _article_documents _menu_documents]. split.
  - intros Heq. apply (is_fresh (dom (<[fresh (dom h) := ∅]> h))).
    rewrite <- Heq at 1. rewrite dom_insert_L. set_solver.
  - destruct (_ !! _) as [d|] eqn:Hd; cbn; [|apply map_Forall_empty].
    destruct (decide (fresh (dom (<[fresh (dom h) := ∅]> h)) = fresh (dom h))) as [Heq|Hne].
    + rewrite <- Heq in Hd at 1. rewrite lookup_insert_eq in Hd.
      injection Hd as <-. apply map_Forall_empty.
    + rewrite lookup_insert_ne, lookup_insert_eq in Hd by done.
      injection Hd as <-. apply map_Forall_empty.
Qed.

Lemma deref_setitem_other s s' r k v r' :
  heap s' = alter (insert k v) r (heap s) -> r <> r' -> deref s' r' = deref s r'.
Proof. intros Hheap Hne. unfold deref. by rewrite Hheap, lookup_alter_ne. Qed.

Lemma deref_setitem_same s s' r k v :
  heap s' = alter (insert k v) r (heap s) ->
  deref s' r = match heap s !! r with Some d => <[k:=v]> d | None => ∅ end.
Proof.
  intros Hheap. unfold deref. rewrite Hheap, lookup_alter_eq.
  by destruct (heap s !! r).
Qed.

Lemma _prepare_documents_file_share fs path file s :
  articles_share_menus s ->
  articles_share_menus (snd (_prepare_documents_file fs path file s)).
Proof.
  intros [Hne Hall]. unfold articles_share_menus.
  destruct (_prepare_documents_file_effect fs path file s) as
    [Hself Hheap|Hself Hheap|Hself Hheap|Hself Hheap].
  - unfold get_articles, get_menus in *. rewrite Hself.
    by rewrite (deref_same_heap _ _ _ Hheap).
  - unfold get_articles, get_menus in *. rewrite Hself. split; [done|].
    rewrite (deref_setitem_same _ _ _ _ _ Hheap).
    unfold deref in Hall. destruct (heap s !! _); cbn in Hall.
    + by apply map_Forall_insert_2.
    + apply map_Forall_empty.
  - unfold get_articles, get_menus in *. rewrite Hself. split; [done|].
    by rewrite (deref_setitem_other _ _ _ _ _ _ Hheap) by done.
  - unfold get_articles, get_menus in *. rewrite Hself. cbn.
    by rewrite (deref_same_heap _ _ _ Hheap).
Qed.

Lemma for_each_share fs path files s :
  articles_share_menus s ->
  articles_share_menus (snd (for_each files (_prepare_documents_file fs path) s)).
Proof.
  revert s. induction files as [|file files IH]; intros s Hs; [done|].
  cbn [for_each]. unfold bind.
  pose proof (_prepare_documents_file_share fs path file s Hs) as Hs1.
  destruct (_prepare_documents_file fs path file s) as [[[]|e] s1]; cbn [snd] in *.
  - by apply IH.
  - done.
Qed.

Lemma load_directory_share fs directory_path s :
  articles_share_menus s ->
  articles_share_menus (snd (load_directory fs directory_path s)).
Proof.
  intros Hs. rewrite load_directory_run.
  set (s0 := with_self (set_directory_path directory_path) s).
  destruct (_is_white_bear_directory_frame fs directory_path s0) as [Hself Hheap].
  assert (articles_share_menus (snd (_is_white_bear_directory fs directory_path s0))) as Hs1.
  { unfold articles_share_menus, get_articles, get_menus in *.
    rewrite Hself, (deref_same_heap _ _ _ Hheap). exact Hs. }
  destruct (_is_white_bear_directory fs directory_path s0) as [[[]|e] s1];
    cbn [snd] in *; try done.
  by apply for_each_share.
Qed.

(** *** Classification *)

(** C1. A file that the loop opens and parses is tested against the
    article schema first, against the menu schema only if that fails, and
    against the index schema only if both fail; the first schema it
    satisfies decides its role, and the list of validations grows by
    exactly the schemas tested up to that one.  An article ends up in the
    article dictionary under its file name, a menu in the menu
    dictionary, an index page as the loader's index document, and in
    each case the other two collections are left as they were.  In
    particular a file that satisfies both the article and the menu schema
    is filed as an article: the menu schema is not asked and the menu
    dictionary is left as it was. *)
Theorem classification_precedence fs path file xml_doc s :
  opened fs path file ->
  parsed_as fs path file = Parsed xml_doc ->
  let is_article := schema_validate (xmlschema_article (self s)) xml_doc in
  let is_menu := schema_validate (xmlschema_menu (self s)) xml_doc in
  let is_index := schema_validate (xmlschema_index (self s)) xml_doc in
  let result := _prepare_documents_file fs path file s in
  (is_article = true ->
     result =
       (Return tt,
        dict_setitem (get_articles s) (filename_of path file)
          (document_of fs path file TYPE_ARTICLE (Some (get_menus s)))
          (validated [schema_article] xml_doc s))) /\
  (is_article = false -> is_menu = true ->
     result =
       (Return tt,
        dict_setitem (get_menus s) (filename_of path file)
          (document_of fs path file TYPE_MENU None)
          (validated [schema_article; schema_menu] xml_doc s))) /\
  (is_article = false -> is_menu = false -> is_index = true ->
     result =
       (Return tt,
        with_self (set_index_document (document_of fs path file TYPE_INDEX None))
          (validated [schema_article; schema_menu; schema_index] xml_doc s))) /\
  (is_article = true ->
     validations (snd result) = validations s ++ [(schema_article, xml_doc)] /\
     get_index_page (snd result) = get_index_page s /\
     (get_articles s <> get_menus s ->
        deref (snd result) (get_menus (snd result)) = deref s (get_menus s)) /\
     (is_Some (heap s !! get_articles s) ->
        deref (snd result) (get_articles (snd result)) !! filename_of path file
        = Some (document_of fs path file TYPE_ARTICLE (Some (get_menus s))))) /\
  (is_article = false -> is_menu = true ->
     validations (snd result)
     = validations s ++ [(schema_article, xml_doc); (schema_menu, xml_doc)] /\
     get_index_page (snd result) = get_index_page s /\
     (get_articles s <> get_menus s ->
        deref (snd result) (get_articles (snd result)) = deref s (get_articles s)) /\
     (is_Some (heap s !! get_menus s) ->
        deref (snd result) (get_menus (snd result)) !! filename_of path file
        = Some (document_of fs path file TYPE_MENU None))) /\
  (is_article = false -> is_menu = false -> is_index = true ->
     validations (snd result)
     = validations s ++ [(schema_article, xml_doc); (schema_menu, xml_doc);
                         (schema_index, xml_doc)] /\
     get_index_page (snd result) = Some (document_of fs path file TYPE_INDEX None) /\
     doc_type (document_of fs path file TYPE_INDEX None) = TYPE_INDEX /\
     (forall r, deref (snd result) r = deref s r)).
Proof.
  intros Hopen Hparse is_article is_menu is_index result.
  subst result. rewrite (_prepare_documents_file_parsed _ _ _ _ _ Hopen Hparse).
  fold is_article is_menu is_index.
  split; [by intros ->|]. split; [by intros -> ->|]. split; [by intros -> -> ->|].
  split; [|split].
  - intros ->. cbn [snd]. split; [reflexivity|]. split; [reflexivity|]. split.
    + intros Hne. by eapply deref_setitem_other.
    + intros [d Hd]. erewrite lookup_deref_setitem by reflexivity.
      rewrite decide_True; [done|]. split; [done|]. split; [done|]. by exists d.
  - intros -> ->. cbn [snd]. split; [reflexivity|]. split; [reflexivity|]. split.
    + intros Hne. eapply deref_setitem_other; [reflexivity|]. by intros Heq.
    + intros [d Hd]. erewrite lookup_deref_setitem by reflexivity.
      rewrite decide_True; [done|]. split; [done|]. split; [done|]. by exists d.
  - intros -> -> ->. cbn [snd]. split; [reflexivity|]. split; [reflexivity|].
    split; [reflexivity|]. intros r. by apply deref_same_heap.
Qed.

(** C6, as the code has it.  A file that is opened but that lxml cannot
    parse ends the load with [UnrecognizedFileException], the class also
    raised for files that parse and match no schema; its message is the
    syntax-error text, a line break and the parser's diagnostic.  Nothing
    is validated or filed for that file. *)
Theorem unparsable_file_is_unrecognized fs directory_path s0 before file after s diagnostic :
  reaches fs directory_path s0 before file after s ->
  opened fs directory_path file ->
  parsed_as fs directory_path file = SyntaxFailure diagnostic ->
  exists e,
    load_directory fs directory_path s0 = (Raise e, s) /\
    e = UnrecognizedFileException
          (exception_html_syntax_error Strings +:+ newline +:+ diagnostic) /\
    str_in diagnostic (message_of e) = true /\
    kind_of e
    = kind_of (UnrecognizedFileException
                 (exception_file_unrecognized Strings +:+ " " +:+
                  filename_of directory_path file)).
Proof.
  intros Hreach Hopen Hparse.
  rewrite (load_directory_at _ _ _ _ _ _ _ Hreach).
  erewrite bind_raise by by apply _prepare_documents_file_syntax.
  eexists. split_and!; [done..| |done]. cbn [message_of].
  do 2 apply str_in_append_l. apply str_in_refl.
Qed.

(** C2, as the code has it.  When the loop arrives at a regular file that
    is not readable or not writable, the load ends with [AccessException]
    naming that file, and the loader is left in the state the pass had
    built on arriving there: whatever the files listed before it put into
    the dictionaries and the index document stays, and no later file is
    looked at. *)
Theorem inaccessible_file_keeps_partial_results fs directory_path s0 before file after s :
  reaches fs directory_path s0 before file after s ->
  os_path_isfile fs (os_path_join directory_path file) = true ->
  os_access fs (os_path_join directory_path file) R_OK = false \/
  os_access fs (os_path_join directory_path file) W_OK = false ->
  exists e,
    load_directory fs directory_path s0 = (Raise e, s) /\
    e = AccessException
          (exception_access_html Strings +:+ " " +:+ os_path_join directory_path file) /\
    str_in (os_path_join directory_path file) (message_of e) = true.
Proof.
  intros Hreach Hfile Hacc.
  rewrite (load_directory_at _ _ _ _ _ _ _ Hreach).
  erewrite bind_raise by by apply _prepare_documents_file_no_access.
  eexists. split_and!; [done..|]. cbn [message_of].
  do 2 apply str_in_append_l. apply str_in_refl.
Qed.

(** *** The directory gate *)

(** C7, as the code has it.  In a directory that is readable and
    writable, a missing [index.html] ends the load with
    [FileNotFoundError], and an [index.html] that exists and parses but
    fails the index schema ends it with [IndexError] carrying the
    not-a-whitebear-directory text and the schema's error log; the two
    are different exception classes. *)
Theorem index_gate_failures fs directory_path s :
  os_access fs directory_path R_OK = true ->
  os_access fs directory_path W_OK = true ->
  let s0 := with_self (set_directory_path directory_path) s in
  let index_html := os_path_join directory_path "index.html" in
  (os_path_exists fs index_html = false ->
     load_directory fs directory_path s
     = (Raise (FileNotFoundError (exception_index Strings +:+ " " +:+ directory_path)),
        s0)) /\
  (forall xml_doc,
     os_path_exists fs index_html = true ->
     html_parse fs index_html = Parsed xml_doc ->
     schema_validate (xmlschema_index (self s)) xml_doc = false ->
     load_directory fs directory_path s
     = (Raise (IndexError
                 (exception_not_white_bear Strings +:+ newline +:+
                  schema_error_log (xmlschema_index (self s)) xml_doc)),
        validated [schema_index] xml_doc s0)) /\
  (forall m1 m2, kind_of (FileNotFoundError m1) <> kind_of (IndexError m2)).
Proof.
  intros Hr Hw s0 index_html. split_and!.
  - intros Hex. rewrite load_directory_run, _is_white_bear_directory_run.
    fold index_html. by rewrite Hr, Hw, Hex.
  - intros xml_doc Hex Hparse Hval.
    rewrite load_directory_run, _is_white_bear_directory_run.
    fold index_html s0. rewrite Hr, Hw, Hex, Hparse. cbn [negb orb].
    change (self s0) with (set_directory_path directory_path (self s)).
    cbn [xmlschema_index set_directory_path]. by rewrite Hval.
  - done.
Qed.

(** *** The loader across loads *)

(** C10. [load_directory] assigns the path before anything is checked:
    whatever the outcome, [get_directory] afterwards gives the path just
    supplied; and when the very first check, the access test on the
    directory, fails, the state at the exception is the old one with only
    the path replaced. *)
Theorem load_directory_stores_path_first fs directory_path s :
  get_directory (snd (load_directory fs directory_path s)) = directory_path /\
  (os_access fs directory_path R_OK = false \/
   os_access fs directory_path W_OK = false ->
   load_directory fs directory_path s
   = (Raise (AccessException (exception_access Strings)),
      with_self (set_directory_path directory_path) s)).
Proof.
  split; [apply load_directory_frame|].
  intros Hacc. rewrite load_directory_run, _is_white_bear_directory_run.
  replace (negb _ || negb _) with true; [done|].
  destruct Hacc as [-> | ->]; [done|]. cbn. by rewrite orb_true_r.
Qed.

(** C3, as the code has it.  After a successful load every document in
    the article dictionary points to the loader's menu dictionary itself,
    so what an article sees as its menus is, entry for entry, what
    [get_menus] gives at the end of the load, including menus filed after
    the article.  If the menu dictionary was empty before the load, as on
    a new loader, every key in it names a file this pass enumerated. *)
Theorem articles_reference_menu_dictionary fs directory_path s s' :
  articles_share_menus s ->
  load_directory fs directory_path s = (Return tt, s') ->
  (forall name article,
     deref s' (get_articles s') !! name = Some article ->
     doc_menus article = Some (get_menus s') /\
     menu_references s' article = Some (deref s' (get_menus s'))) /\
  (deref s (get_menus s) = ∅ ->
   forall name, is_Some (deref s' (get_menus s') !! name) ->
     name ∈ List.map (filename_of directory_path)
              (glob_glob fs (directory_path +:+ "/*.html"))).
Proof.
  intros Hs Hload.
  pose proof (load_directory_share fs directory_path s Hs) as [_ Hall].
  destruct (load_directory_frame fs directory_path s) as (_ & _ & Hm & Hg).
  rewrite Hload in Hall, Hm, Hg. cbn [snd] in *. split.
  - intros name article Hin.
    pose proof (map_Forall_lookup_1 _ _ _ _ Hall Hin) as Hmenus.
    split; [done|]. unfold menu_references. by rewrite Hmenus.
  - intros Hempty name Hin. rewrite Hm in Hin.
    destruct (grows_new _ _ _ Hg _ _ Hin) as [Hold|]; [|done].
    rewrite Hempty, lookup_empty in Hold. by destruct Hold.
Qed.


(** ** Further properties of the loader *)

(** *** The gate as a test *)

(** The accesses and the verdict the gate needs to let a directory
    through. *)
Definition gate_passes (fs : FileSystem) (l : Loader) (path : string) : bool :=
  os_access fs path R_OK && os_access fs path W_OK &&
  os_path_exists fs (os_path_join path "index.html") &&
  match html_parse fs (os_path_join path "index.html") with
  | Parsed xml_doc => schema_validate (xmlschema_index l) xml_doc
  | _ => false
  end.

Lemma _is_white_bear_directory_passes fs path s :
  fst (_is_white_bear_directory fs path s) = Return true
  <-> gate_passes fs (self s) path = true.
Proof.
  rewrite _is_white_bear_directory_run. unfold gate_passes.
  destruct (os_access fs path R_OK), (os_access fs path W_OK);
    cbn [negb orb andb fst]; try done.
  destruct (os_path_exists fs _); cbn [negb andb fst]; try done.
  destruct (html_parse fs _) as [xml_doc|e|e|e]; try done.
  by destruct (schema_validate _ xml_doc).
Qed.

Lemma _is_white_bear_directory_not_false fs path s :
  fst (_is_white_bear_directory fs path s) <> Return false.
Proof.
  rewrite _is_white_bear_directory_run.
  repeat match goal with |- context [if ?b then _ else _] => destruct b end;
    try done.
  destruct (html_parse _ _); [|done..].
  by destruct (schema_validate _ _).
Qed.

(** X1. [_is_white_bear_directory] returns [True] exactly when the
    directory is readable and writable and [index.html] exists, parses
    and satisfies the index schema; it never returns [False] (every other
    case is an exception); and whatever the outcome it leaves the
    loader's attributes, the dictionaries and the output as they were. *)
Theorem _is_white_bear_directory_verdict fs path s :
  (fst (_is_white_bear_directory fs path s) = Return true
   <-> gate_passes fs (self s) path = true) /\
  fst (_is_white_bear_directory fs path s) <> Return false /\
  self (snd (_is_white_bear_directory fs path s)) = self s /\
  heap (snd (_is_white_bear_directory fs path s)) = heap s /\
  stdout (snd (_is_white_bear_directory fs path s)) = stdout s.
Proof.
  split; [apply _is_white_bear_directory_passes|].
  split; [apply _is_white_bear_directory_not_false|].
  destruct (_is_white_bear_directory_frame fs path s) as [Hself Hheap].
  split; [exact Hself|]. split; [exact Hheap|].
  rewrite _is_white_bear_directory_run.
  repeat match goal with |- context [if ?b then _ else _] => destruct b end;
    try done.
  destruct (html_parse _ _); [|done..].
  by destruct (schema_validate _ _).
Qed.

(** X2. In an accessible directory an [index.html] that lxml cannot parse
    ends the load with [IndexError], the class also used when the file
    parses but fails the index schema, carrying the syntax-error text and
    the parser's diagnostic; nothing is validated and only the path has
    been assigned.  The same failure on a file met in the loop is an
    [UnrecognizedFileException] with the same message. *)
Theorem unparsable_index_is_index_error fs directory_path s diagnostic :
  os_access fs directory_path R_OK = true ->
  os_access fs directory_path W_OK = true ->
  os_path_exists fs (os_path_join directory_path "index.html") = true ->
  html_parse fs (os_path_join directory_path "index.html") = SyntaxFailure diagnostic ->
  let message := exception_html_syntax_error Strings +:+ newline +:+ diagnostic in
  load_directory fs directory_path s
  = (Raise (IndexError message), with_self (set_directory_path directory_path) s) /\
  (forall file s1,
     opened fs directory_path file ->
     parsed_as fs directory_path file = SyntaxFailure diagnostic ->
     _prepare_documents_file fs directory_path file s1
     = (Raise (UnrecognizedFileException message), s1)).
Proof.
  intros Hr Hw Hex Hparse message. split.
  - rewrite load_directory_run, _is_white_bear_directory_run.
    by rewrite Hr, Hw, Hex, Hparse.
  - intros file s1 Hopen Hfile. by apply _prepare_documents_file_syntax.
Qed.

(** *** When a load succeeds *)

(** The three schemas of a loader, in the order they are asked. *)
Definition schemas_of (l : Loader) : XMLSchema * XMLSchema * XMLSchema :=
  (xmlschema_article l, xmlschema_menu l, xmlschema_index l).

(** The role the loop gives a listed file, if any. *)
Definition role_of (fs : FileSystem) (schemas : XMLSchema * XMLSchema * XMLSchema)
    (path file : string) : option DocType :=
  let '(article, menu, index) := schemas in
  let f := os_path_join path file in
  if os_path_isfile fs f && os_access fs f R_OK && os_access fs f W_OK then
    match parsed_as fs path file with
    | Parsed xml_doc =>
        if schema_validate article xml_doc then Some TYPE_ARTICLE
        else if schema_validate menu xml_doc then Some TYPE_MENU
        else if schema_validate index xml_doc then Some TYPE_INDEX
        else None
    | _ => None
    end
  else None.

(** The listed files the loop gets past: what is not a regular file, and
    regular files that are readable, writable, parse, and either have a
    role or carry one of the two markers in their name. *)
Definition accepts (fs : FileSystem) (schemas : XMLSchema * XMLSchema * XMLSchema)
    (path file : string) : bool :=
  let f := os_path_join path file in
  if os_path_isfile fs f then
    os_access fs f R_OK && os_access fs f W_OK &&
    match parsed_as fs path file with
    | Parsed _ =>
        bool_decide (is_Some (role_of fs schemas path file))
        || str_in "google" (filename_of path file)
        || str_in "404" (filename_of path file)
    | _ => false
    end
  else true.

Lemma schemas_of_set_directory_path p l :
  schemas_of (set_directory_path p l) = schemas_of l.
Proof. reflexivity. Qed.

Lemma _prepare_documents_file_schemas fs path file s :
  schemas_of (self (snd (_prepare_documents_file fs path file s))) = schemas_of (self s).
Proof.
  destruct (_prepare_documents_file_effect fs path file s) as
    [Hself _|Hself _|Hself _|Hself _]; by rewrite Hself.
Qed.

Lemma _prepare_documents_file_returns fs path file s :
  fst (_prepare_documents_file fs path file s) = Return tt
  <-> accepts fs (schemas_of (self s)) path file = true.
Proof.
  unfold accepts, role_of, schemas_of.
  destruct (os_path_isfile fs (os_path_join path file)) eqn:Hfile.
  2:{ by rewrite _prepare_documents_file_not_a_file. }
  destruct (os_access fs (os_path_join path file) R_OK) eqn:Hr.
  2:{ by rewrite _prepare_documents_file_no_access by auto. }
  destruct (os_access fs (os_path_join path file) W_OK) eqn:Hw.
  2:{ by rewrite _prepare_documents_file_no_access by auto. }
  assert (opened fs path file) as Hopen by done. cbn [andb].
  destruct (parsed_as fs path file) as [xml_doc|e|e|e] eqn:Hparse.
  - rewrite (_prepare_documents_file_parsed _ _ _ _ _ Hopen Hparse).
    destruct (schema_validate (xmlschema_article _) _); [done|].
    destruct (schema_validate (xmlschema_menu _) _); [done|].
    destruct (schema_validate (xmlschema_index _) _); [done|].
    cbn [orb]. rewrite bool_decide_eq_false_2 by (by intros [? ?]). cbn [orb].
    by destruct (_ || _).
  - by rewrite (_prepare_documents_file_syntax _ _ _ _ _ Hopen Hparse).
  - by rewrite (_prepare_documents_file_unreadable _ _ _ _ _ Hopen Hparse).
  - by rewrite (_prepare_documents_file_rootless _ _ _ _ _ Hopen Hparse).
Qed.

Lemma for_each_returns fs path files s :
  fst (for_each files (_prepare_documents_file fs path) s) = Return tt
  <-> forallb (accepts fs (schemas_of (self s)) path) files = true.
Proof.
  revert s. induction files as [|file files IH]; intros s; [done|].
  cbn [for_each forallb]. rewrite andb_true_iff, <- _prepare_documents_file_returns.
  pose proof (_prepare_documents_file_schemas fs path file s) as Hsch.
  unfold bind. destruct (_prepare_documents_file fs path file s) as [[[]|e] s1];
    cbn [fst snd] in *.
  - rewrite IH, Hsch. tauto.
  - split; [done|]. by intros [? _].
Qed.

(** X3. [load_directory] returns normally exactly when the gate lets the
    directory through and the loop gets past every listed file: each is
    either not a regular file, or is readable, writable, parses and
    either satisfies one of the three schemas or has [google] or [404]
    in its name. *)
Theorem load_directory_succeeds_iff fs directory_path s :
  fst (load_directory fs directory_path s) = Return tt
  <-> gate_passes fs (self s) directory_path = true /\
      forallb (accepts fs (schemas_of (self s)) directory_path)
        (glob_glob fs (directory_path +:+ "/*.html")) = true.
Proof.
  rewrite load_directory_run.
  set (s0 := with_self (set_directory_path directory_path) s).
  pose proof (_is_white_bear_directory_passes fs directory_path s0) as Hpass.
  pose proof (_is_white_bear_directory_not_false fs directory_path s0) as Hfalse.
  destruct (_is_white_bear_directory_frame fs directory_path s0) as [Hself _].
  change (gate_passes fs (self s0) directory_path)
    with (gate_passes fs (self s) directory_path) in Hpass.
  rewrite <- Hpass.
  destruct (_is_white_bear_directory fs directory_path s0) as [[[]|e] s1];
    cbn [fst snd] in *.
  - unfold _prepare_documents. rewrite for_each_returns, Hself.
    change (schemas_of (self s0)) with (schemas_of (self s)). tauto.
  - done.
  - split; [done|]. by intros [? _].
Qed.


(** *** What a load never touches *)

Lemma _prepare_documents_file_store fs path file s :
  dom (heap (snd (_prepare_documents_file fs path file s))) = dom (heap s) /\
  forall r, r <> get_articles s -> r <> get_menus s ->
    heap (snd (_prepare_documents_file fs path file s)) !! r = heap s !! r.
Proof.
  destruct (_prepare_documents_file_effect fs path file s) as
    [_ Hheap|_ Hheap|_ Hheap|_ Hheap]; rewrite Hheap; try done.
  - rewrite dom_alter_L. split; [done|]. intros r Ha _. by rewrite lookup_alter_ne.
  - rewrite dom_alter_L. split; [done|]. intros r _ Hm. by rewrite lookup_alter_ne.
Qed.

Lemma for_each_store fs path files s :
  dom (heap (snd (for_each files (_prepare_documents_file fs path) s))) = dom (heap s) /\
  forall r, r <> get_articles s -> r <> get_menus s ->
    heap (snd (for_each files (_prepare_documents_file fs path) s)) !! r = heap s !! r.
Proof.
  revert s. induction files as [|file files IH]; intros s; [done|].
  cbn [for_each]. unfold bind.
  destruct (_prepare_documents_file_store fs path file s) as [Hdom Hother].
  destruct (_prepare_documents_file_frame fs path file s) as [(_ & Ha & Hm) _].
  destruct (_prepare_documents_file fs path file s) as [[[]|e] s1]; cbn [snd] in *.
  - destruct (IH s1) as [Hdom' Hother']. rewrite Ha, Hm in Hother'.
    split; [congruence|]. intros r Hra Hrm. rewrite Hother' by done. by apply Hother.
  - done.
Qed.

Lemma load_directory_store fs directory_path s :
  dom (heap (snd (load_directory fs directory_path s))) = dom (heap s) /\
  forall r, r <> get_articles s -> r <> get_menus s ->
    heap (snd (load_directory fs directory_path s)) !! r = heap s !! r.
Proof.
  rewrite load_directory_run.
  set (s0 := with_self (set_directory_path directory_path) s).
  destruct (_is_white_bear_directory_frame fs directory_path s0) as [Hself Hheap].
  destruct (_is_white_bear_directory fs directory_path s0) as [[[]|e] s1];
    cbn [snd] in *; try (rewrite Hheap; done).
  unfold _prepare_documents.
  destruct (for_each_store fs directory_path
              (glob_glob fs (directory_path +:+ "/*.html")) s1) as [Hdom Hother].
  unfold get_articles, get_menus in *. rewrite Hself, Hheap in *.
  split; [exact Hdom|]. intros r Ha Hm. by apply Hother.
Qed.

(** X4. A load allocates and frees nothing, and the only objects of the
    store it writes to are the loader's own two dictionaries: every other
    dictionary in the store is afterwards what it was, whatever the
    outcome. *)
Theorem load_directory_writes_own_dictionaries_only fs directory_path s :
  dom (heap (snd (load_directory fs directory_path s))) = dom (heap s) /\
  forall r, r <> get_articles s -> r <> get_menus s ->
    deref (snd (load_directory fs directory_path s)) r = deref s r /\
    heap (snd (load_directory fs directory_path s)) !! r = heap s !! r.
Proof.
  destruct (load_directory_store fs directory_path s) as [Hdom Hother].
  split; [exact Hdom|]. intros r Ha Hm.
  unfold deref. rewrite (Hother r Ha Hm). done.
Qed.

(** *** A new loader *)

Lemma __init___fresh Fetch_schema h :
  let s := __init__ Fetch_schema h in
  get_articles s <> get_menus s /\
  (get_articles s ∉ dom h) /\ (get_menus s ∉ dom h) /\
  (forall r, r ∈ dom h -> heap s !! r = h !! r).
Proof.
  cbn zeta. unfold __init__, get_articles, get_menus, new_dict.
  cbn [self heap _article_documents _menu_documents].
  set (a := fresh (dom h)). set (m := fresh (dom (<[a:=∅]> h))).
  assert (a ∉ dom h) as Ha by apply is_fresh.
  assert (m ∉ dom (<[a:=∅]> h)) as Hm by apply is_fresh.
  rewrite dom_insert_L in Hm.
  assert (a <> m) as Hne by set_solver.
  split_and!; try done.
  - set_solver.
  - intros r Hr. rewrite !lookup_insert_ne; [done|set_solver..].
Qed.

(** X5. A newly constructed loader has the empty path, two empty
    dictionaries and no index document; its dictionaries are two
    different objects, neither of which existed in the store before, and
    every object that did exist is unchanged. *)
Theorem __init___makes_empty_separate_loader Fetch_schema h :
  let s := __init__ Fetch_schema h in
  get_directory s = EmptyString /\
  heap s !! get_articles s = Some ∅ /\
  heap s !! get_menus s = Some ∅ /\
  get_index_page s = None /\
  get_articles s <> get_menus s /\
  (get_articles s ∉ dom h) /\ (get_menus s ∉ dom h) /\
  (forall r, r ∈ dom h -> heap s !! r = h !! r).
Proof.
  cbn zeta.
  destruct (__init___fresh Fetch_schema h) as (Hne & Ha & Hm & Hold).
  split; [reflexivity|]. split_and!; try done.
  - unfold __init__, get_articles, get_menus, new_dict in *.
    cbn [self heap _article_documents _menu_documents] in *.
    rewrite lookup_insert_ne by done. apply lookup_insert_eq.
  - unfold __init__, get_menus, new_dict.
    cbn [self heap _menu_documents]. apply lookup_insert_eq.
Qed.

(** X6. Two loaders do not share their dictionaries: a load with a
    loader constructed after another one leaves the dictionaries of the
    older loader exactly as they were. *)
Theorem loaders_are_independent Fetch_schema fs directory_path (older : State) :
  is_Some (heap older !! get_articles older) ->
  is_Some (heap older !! get_menus older) ->
  let newer := __init__ Fetch_schema (heap older) in
  let newer' := snd (load_directory fs directory_path newer) in
  deref newer' (get_articles older) = deref older (get_articles older) /\
  deref newer' (get_menus older) = deref older (get_menus older).
Proof.
  intros Ha Hm newer newer'.
  destruct (__init___fresh Fetch_schema (heap older)) as (_ & Hna & Hnm & Hold).
  fold newer in Hna, Hnm, Hold.
  destruct (load_directory_store fs directory_path newer) as [_ Hother].
  fold newer' in Hother.
  apply elem_of_dom in Ha, Hm. unfold deref.
  assert (get_articles older <> get_articles newer /\
          get_articles older <> get_menus newer /\
          get_menus older <> get_articles newer /\
          get_menus older <> get_menus newer) as (H1 & H2 & H3 & H4)
    by (split_and!; intros Heq; rewrite Heq in *; done).
  split; by rewrite Hother, Hold.
Qed.


(** *** What the dictionaries hold *)

#[global] Instance DocType_eq_dec : EqDecision DocType.
Proof. solve_decision. Defined.

#[global] Instance WhitebearDocument_eq_dec : EqDecision WhitebearDocument.
Proof. solve_decision. Defined.

(** Every document sits where its role says: articles in the article
    dictionary, under their file name and pointing to the menu
    dictionary; menus in the menu dictionary, under their file name and
    pointing nowhere; and the index document, if any, is an index. *)
Definition well_filed (s : State) : Prop :=
  get_articles s <> get_menus s /\
  map_Forall (fun k d => doc_filename d = k /\ doc_type d = TYPE_ARTICLE /\
                         doc_menus d = Some (get_menus s))
    (deref s (get_articles s)) /\
  map_Forall (fun k d => doc_filename d = k /\ doc_type d = TYPE_MENU /\
                         doc_menus d = None)
    (deref s (get_menus s)) /\
  match get_index_page s with
  | Some d => doc_type d = TYPE_INDEX /\ doc_menus d = None
  | None => True
  end.

#[global] Instance well_filed_dec s : Decision (well_filed s).
Proof. unfold well_filed. destruct (get_index_page s); apply _. Defined.

Lemma _prepare_documents_file_well_filed fs path file s :
  well_filed s -> well_filed (snd (_prepare_documents_file fs path file s)).
Proof.
  intros (Hne & Harticles & Hmenus & Hindex). unfold well_filed.
  destruct (_prepare_documents_file_effect fs path file s) as
    [Hself Hheap|Hself Hheap|Hself Hheap|Hself Hheap];
    unfold get_articles, get_menus, get_index_page in *; rewrite Hself.
  - by rewrite !(deref_same_heap _ _ _ Hheap).
  - rewrite (deref_setitem_same _ _ _ _ _ Hheap).
    rewrite (deref_setitem_other _ _ _ _ _ _ Hheap) by done.
    split_and!; try done.
    unfold deref in Harticles. destruct (heap s !! _); cbn in Harticles.
    + by apply map_Forall_insert_2.
    + apply map_Forall_empty.
  - rewrite (deref_setitem_same _ _ _ _ _ Hheap).
    rewrite (deref_setitem_other _ _ _ _ _ _ Hheap) by done.
    split_and!; try done.
    unfold deref in Hmenus. destruct (heap s !! _menu_documents _); cbn in Hmenus.
    + by apply map_Forall_insert_2.
    + apply map_Forall_empty.
  - cbn [_article_documents _menu_documents _index_document set_index_document].
    by rewrite !(deref_same_heap _ _ _ Hheap).
Qed.

Lemma for_each_well_filed fs path files s :
  well_filed s ->
  well_filed (snd (for_each files (_prepare_documents_file fs path) s)).
Proof.
  revert s. induction files as [|file files IH]; intros s Hs; [done|].
  cbn [for_each]. unfold bind.
  pose proof (_prepare_documents_file_well_filed fs path file s Hs) as Hs1.
  destruct (_prepare_documents_file fs path file s) as [[[]|e] s1]; cbn [snd] in *.
  - by apply IH.
  - done.
Qed.

(** X7. Loads keep the dictionaries well filed, whether they succeed or
    fail: every entry of the article dictionary is an article stored
    under its own file name and pointing to the loader's menu
    dictionary, every entry of the menu dictionary is a menu stored
    under its own file name with no menu reference, and the index
    document, when set, has the index role. *)
Theorem load_directory_keeps_well_filed fs directory_path s :
  well_filed s -> well_filed (snd (load_directory fs directory_path s)).
Proof.
  intros Hs. rewrite load_directory_run.
  set (s0 := with_self (set_directory_path directory_path) s).
  destruct (_is_white_bear_directory_frame fs directory_path s0) as [Hself Hheap].
  assert (well_filed (snd (_is_white_bear_directory fs directory_path s0))) as Hs1.
  { unfold well_filed, get_articles, get_menus, get_index_page in *.
    rewrite Hself, !(deref_same_heap _ _ _ Hheap). exact Hs. }
  destruct (_is_white_bear_directory fs directory_path s0) as [[[]|e] s1];
    cbn [snd] in *; try done.
  by apply for_each_well_filed.
Qed.

(** The last element of a list that passes a test. *)
Fixpoint last_with {A} (test : A -> bool) (l : list A) : option A :=
  match l with
  | [] => None
  | x :: l' =>
      match last_with test l' with
      | Some y => Some y
      | None => if test x then Some x else None
      end
  end.

(** The listed file that ends up under key [k] of the dictionary for
    role [t], and the listed file that ends up as the index document. *)
Definition filed_under (fs : FileSystem) (schemas : XMLSchema * XMLSchema * XMLSchema)
    (path : string) (t : DocType) (k : string) (files : list string) : option string :=
  last_with (fun f => bool_decide (role_of fs schemas path f = Some t)
                      && String.eqb (filename_of path f) k) files.

Definition filed_as_index (fs : FileSystem) (schemas : XMLSchema * XMLSchema * XMLSchema)
    (path : string) (files : list string) : option string :=
  last_with (fun f => bool_decide (role_of fs schemas path f = Some TYPE_INDEX)) files.

(** Both dictionaries exist and are different objects. *)
Definition dictionaries_allocated (s : State) : Prop :=
  get_articles s <> get_menus s /\
  is_Some (heap s !! get_articles s) /\ is_Some (heap s !! get_menus s).

#[global] Instance dictionaries_allocated_dec s : Decision (dictionaries_allocated s).
Proof. unfold dictionaries_allocated. apply _. Defined.

(** One listed file that the loop gets past: what it leaves under each
    key and in the index document. *)
Lemma _prepare_documents_file_files fs path file s s1 :
  dictionaries_allocated s ->
  _prepare_documents_file fs path file s = (Return tt, s1) ->
  let role := role_of fs (schemas_of (self s)) path file in
  (forall k, deref s1 (get_articles s) !! k
             = if bool_decide (role = Some TYPE_ARTICLE)
                  && String.eqb (filename_of path file) k
               then Some (document_of fs path file TYPE_ARTICLE (Some (get_menus s)))
               else deref s (get_articles s) !! k) /\
  (forall k, deref s1 (get_menus s) !! k
             = if bool_decide (role = Some TYPE_MENU)
                  && String.eqb (filename_of path file) k
               then Some (document_of fs path file TYPE_MENU None)
               else deref s (get_menus s) !! k) /\
  get_index_page s1
  = (if bool_decide (role = Some TYPE_INDEX)
     then Some (document_of fs path file TYPE_INDEX None)
     else get_index_page s).
Proof.
  intros (Hne & Ha & Hm) Hrun. cbn zeta. unfold role_of, schemas_of.
  destruct (os_path_isfile fs (os_path_join path file)) eqn:Hfile.
  2:{ rewrite _prepare_documents_file_not_a_file in Hrun by done.
      injection Hrun as <-. done. }
  destruct (os_access fs (os_path_join path file) R_OK) eqn:Hr.
  2:{ rewrite _prepare_documents_file_no_access in Hrun by auto. done. }
  destruct (os_access fs (os_path_join path file) W_OK) eqn:Hw.
  2:{ rewrite _prepare_documents_file_no_access in Hrun by auto. done. }
  assert (opened fs path file) as Hopen by done. cbn [andb].
  destruct (parsed_as fs path file) as [xml_doc|e|e|e] eqn:Hparse.
  - rewrite (_prepare_documents_file_parsed _ _ _ _ _ Hopen Hparse) in Hrun.
    destruct (schema_validate (xmlschema_article _) _).
    { injection Hrun as <-. split_and!; [| |done].
      - intros k. erewrite lookup_deref_setitem by reflexivity.
        cbn [heap validated]. rewrite bool_decide_eq_true_2 by done. cbn [andb].
        destruct (String.eqb_spec (filename_of path file) k) as [->|Hk].
        + by rewrite decide_True.
        + rewrite decide_False; [done|]. by intros (_ & ? & _).
      - intros k. erewrite lookup_deref_setitem by reflexivity.
        rewrite decide_False; [done|]. by intros (? & _). }
    destruct (schema_validate (xmlschema_menu _) _).
    { injection Hrun as <-. split_and!; [| |done].
      - intros k. erewrite lookup_deref_setitem by reflexivity.
        rewrite decide_False; [done|]. intros (? & _). by apply Hne.
      - intros k. erewrite lookup_deref_setitem by reflexivity.
        cbn [heap validated]. rewrite bool_decide_eq_true_2 by done. cbn [andb].
        destruct (String.eqb_spec (filename_of path file) k) as [->|Hk].
        + by rewrite decide_True.
        + rewrite decide_False; [done|]. by intros (_ & ? & _). }
    destruct (schema_validate (xmlschema_index _) _).
    { injection Hrun as <-. done. }
    destruct (_ || _); [|done]. injection Hrun as <-. done.
  - by rewrite (_prepare_documents_file_syntax _ _ _ _ _ Hopen Hparse) in Hrun.
  - by rewrite (_prepare_documents_file_unreadable _ _ _ _ _ Hopen Hparse) in Hrun.
  - by rewrite (_prepare_documents_file_rootless _ _ _ _ _ Hopen Hparse) in Hrun.
Qed.

Lemma _prepare_documents_file_allocated fs path file s :
  dictionaries_allocated s ->
  dictionaries_allocated (snd (_prepare_documents_file fs path file s)).
Proof.
  intros (Hne & Ha & Hm).
  destruct (_prepare_documents_file_frame fs path file s) as [(_ & Ha' & Hm') _].
  destruct (_prepare_documents_file_store fs path file s) as [Hdom _].
  unfold dictionaries_allocated. rewrite Ha', Hm'.
  split; [done|]. rewrite <- !elem_of_dom, Hdom, !elem_of_dom. done.
Qed.

Lemma for_each_files fs path files s s' :
  dictionaries_allocated s ->
  for_each files (_prepare_documents_file fs path) s = (Return tt, s') ->
  let schemas := schemas_of (self s) in
  (forall k, deref s' (get_articles s) !! k
             = match filed_under fs schemas path TYPE_ARTICLE k files with
               | Some f => Some (document_of fs path f TYPE_ARTICLE (Some (get_menus s)))
               | None => deref s (get_articles s) !! k
               end) /\
  (forall k, deref s' (get_menus s) !! k
             = match filed_under fs schemas path TYPE_MENU k files with
               | Some f => Some (document_of fs path f TYPE_MENU None)
               | None => deref s (get_menus s) !! k
               end) /\
  get_index_page s'
  = match filed_as_index fs schemas path files with
    | Some f => Some (document_of fs path f TYPE_INDEX None)
    | None => get_index_page s
    end.
Proof.
  revert s. induction files as [|file files IH]; intros s Halloc Hrun; cbn zeta.
  { injection Hrun as <-. done. }
  cbn [for_each] in Hrun. unfold bind in Hrun.
  pose proof (_prepare_documents_file_allocated fs path file s Halloc) as Halloc1.
  pose proof (_prepare_documents_file_schemas fs path file s) as Hsch.
  destruct (_prepare_documents_file_frame fs path file s) as [(_ & Ha & Hm) _].
  destruct (_prepare_documents_file fs path file s) as [[[]|e] s1] eqn:Hstep;
    cbn [snd] in *; [|done].
  destruct (_prepare_documents_file_files _ _ _ _ _ Halloc Hstep) as (Hfa & Hfm & Hfi).
  destruct (IH s1 Halloc1 Hrun) as (IHa & IHm & IHi).
  rewrite Hsch, Ha, Hm in *.
  unfold filed_under, filed_as_index. cbn [last_with].
  fold (filed_under fs (schemas_of (self s)) path TYPE_ARTICLE)
       (filed_under fs (schemas_of (self s)) path TYPE_MENU)
       (filed_as_index fs (schemas_of (self s)) path files).
  split_and!.
  - intros k. rewrite IHa.
    fold (filed_under fs (schemas_of (self s)) path TYPE_ARTICLE k files).
    destruct (filed_under _ _ _ TYPE_ARTICLE k files); [done|]. rewrite Hfa.
    by destruct (_ && _).
  - intros k. rewrite IHm.
    fold (filed_under fs (schemas_of (self s)) path TYPE_MENU k files).
    destruct (filed_under _ _ _ TYPE_MENU k files); [done|]. rewrite Hfm.
    by destruct (_ && _).
  - rewrite IHi. destruct (filed_as_index _ _ _ files); [done|]. rewrite Hfi.
    by repeat case_bool_decide.
Qed.

(** X8. After a successful load the article dictionary holds, under each
    key, the article built from the last listed file with that name that
    the loop classified as an article, or else what it held before; the
    same for menus; and the index document is the one built from the
    last listed file classified as index, or else the earlier one. *)
Theorem load_directory_files_by_role fs directory_path s s' :
  dictionaries_allocated s ->
  load_directory fs directory_path s = (Return tt, s') ->
  let files := glob_glob fs (directory_path +:+ "/*.html") in
  let schemas := schemas_of (self s) in
  (forall k, deref s' (get_articles s') !! k
             = match filed_under fs schemas directory_path TYPE_ARTICLE k files with
               | Some f => Some (document_of fs directory_path f TYPE_ARTICLE
                                   (Some (get_menus s')))
               | None => deref s (get_articles s) !! k
               end) /\
  (forall k, deref s' (get_menus s') !! k
             = match filed_under fs schemas directory_path TYPE_MENU k files with
               | Some f => Some (document_of fs directory_path f TYPE_MENU None)
               | None => deref s (get_menus s) !! k
               end) /\
  get_index_page s'
  = match filed_as_index fs schemas directory_path files with
    | Some f => Some (document_of fs directory_path f TYPE_INDEX None)
    | None => get_index_page s
    end.
Proof.
  intros Halloc Hload. cbn zeta.
  destruct (load_directory_frame fs directory_path s) as (_ & Ha & Hm & _).
  rewrite Hload in Ha, Hm. cbn [snd] in Ha, Hm. rewrite Ha, Hm.
  rewrite load_directory_run in Hload.
  set (s0 := with_self (set_directory_path directory_path) s) in *.
  destruct (_is_white_bear_directory_frame fs directory_path s0) as [Hself Hheap].
  pose proof (_is_white_bear_directory_not_false fs directory_path s0) as Hfalse.
  destruct (_is_white_bear_directory fs directory_path s0) as [[[]|e] s1];
    cbn [fst snd] in *; try done.
  assert (dictionaries_allocated s1) as Halloc1.
  { unfold dictionaries_allocated, get_articles, get_menus in *.
    by rewrite Hself, Hheap. }
  destruct (for_each_files _ _ _ _ _ Halloc1 Hload) as (Hfa & Hfm & Hfi).
  unfold get_articles, get_menus, get_index_page in *.
  rewrite Hself in Hfa, Hfm, Hfi.
  change (schemas_of (self s0)) with (schemas_of (self s)) in *.
  change (_article_documents (self s0)) with (_article_documents (self s)) in *.
  change (_menu_documents (self s0)) with (_menu_documents (self s)) in *.
  change (_index_document (self s0)) with (_index_document (self s)) in *.
  assert (forall r, deref s1 r = deref s r) as Hderef
    by (intros r; by apply deref_same_heap).
  split_and!.
  - intros k. rewrite Hfa. by rewrite Hderef.
  - intros k. rewrite Hfm. by rewrite Hderef.
  - exact Hfi.
Qed.


(** *** What a pass adds and what it leaves *)

Lemma last_with_Some {A} (test : A -> bool) (l : list A) (x : A) :
  last_with test l = Some x -> x ∈ l /\ test x = true.
Proof.
  induction l as [|y l IH]; [done|]. cbn [last_with].
  destruct (last_with test l) as [z|].
  - intros [= ->]. destruct IH as [Hin Ht]; [done|]. split; [by right|done].
  - destruct (test y) eqn:Hy; [|done]. intros [= ->]. split; [by left|done].
Qed.

Lemma last_with_None {A} (test : A -> bool) (l : list A) :
  (forall x, x ∈ l -> test x = false) -> last_with test l = None.
Proof.
  induction l as [|y l IH]; [done|]. intros Hall. cbn [last_with].
  rewrite IH by (intros x Hx; apply Hall; by right).
  by rewrite Hall by by left.
Qed.

Lemma last_with_is_Some {A} (test : A -> bool) (l : list A) (x : A) :
  x ∈ l -> test x = true -> is_Some (last_with test l).
Proof.
  induction l as [|y l IH]; intros Hin Ht; [by apply elem_of_nil in Hin|].
  cbn [last_with]. apply elem_of_cons in Hin as [->|Hin].
  - destruct (last_with test l); [done|]. by rewrite Ht.
  - destruct (IH Hin Ht) as [z ->]. done.
Qed.

(** Names that are pairwise different single out their files. *)
Lemma NoDup_names_inj (name : string -> string) (l : list string) (x y : string) :
  NoDup (List.map name l) -> x ∈ l -> y ∈ l -> name x = name y -> x = y.
Proof.
  induction l as [|z l IH]; intros Hnd Hx Hy Heq; [by apply elem_of_nil in Hx|].
  cbn [List.map] in Hnd. apply NoDup_cons in Hnd as [Hz Hnd].
  assert (forall w, w ∈ l -> name w <> name z) as Hother.
  { intros w Hw Hwz. apply Hz. rewrite <- Hwz.
    change (List.map name l) with (name <$> l). by apply list_elem_of_fmap_2. }
  apply elem_of_cons in Hx as [->|Hx]; apply elem_of_cons in Hy as [->|Hy]; auto.
  - exfalso. by apply (Hother y Hy).
  - exfalso. by apply (Hother x Hx).
Qed.

Lemma for_each_schemas fs path files s :
  schemas_of (self (snd (for_each files (_prepare_documents_file fs path) s)))
  = schemas_of (self s).
Proof.
  revert s. induction files as [|file files IH]; intros s; [done|].
  cbn [for_each]. unfold bind.
  pose proof (_prepare_documents_file_schemas fs path file s) as Hsch.
  destruct (_prepare_documents_file fs path file s) as [[[]|e] s1]; cbn [snd] in *.
  - by rewrite IH.
  - done.
Qed.

Lemma reaches_schemas fs directory_path s0 before file after s :
  reaches fs directory_path s0 before file after s ->
  schemas_of (self s) = schemas_of (self s0).
Proof.
  intros (_ & s1 & Hgate & Hloop).
  pose proof (for_each_schemas fs directory_path before s1) as Hsch.
  rewrite Hloop in Hsch. cbn [snd] in Hsch. rewrite Hsch.
  destruct (_is_white_bear_directory_frame fs directory_path
              (with_self (set_directory_path directory_path) s0)) as [Hself _].
  rewrite Hgate in Hself. cbn [snd] in Hself. by rewrite Hself.
Qed.

(** What a successful load leaves under each key and as index document. *)
Lemma load_directory_files fs directory_path s s' :
  dictionaries_allocated s ->
  load_directory fs directory_path s = (Return tt, s') ->
  let files := glob_glob fs (directory_path +:+ "/*.html") in
  let schemas := schemas_of (self s) in
  (forall k, deref s' (get_articles s') !! k
             = match filed_under fs schemas directory_path TYPE_ARTICLE k files with
               | Some f => Some (document_of fs directory_path f TYPE_ARTICLE
                                   (Some (get_menus s')))
               | None => deref s (get_articles s) !! k
               end) /\
  (forall k, deref s' (get_menus s') !! k
             = match filed_under fs schemas directory_path TYPE_MENU k files with
               | Some f => Some (document_of fs directory_path f TYPE_MENU None)
               | None => deref s (get_menus s) !! k
               end) /\
  get_index_page s'
  = match filed_as_index fs schemas directory_path files with
    | Some f => Some (document_of fs directory_path f TYPE_INDEX None)
    | None => get_index_page s
    end.
Proof.
  intros Halloc Hload. cbn zeta.
  destruct (load_directory_frame fs directory_path s) as (_ & Ha & Hm & _).
  rewrite Hload in Ha, Hm. cbn [snd] in Ha, Hm. rewrite Ha, Hm.
  rewrite load_directory_run in Hload.
  set (s0 := with_self (set_directory_path directory_path) s) in *.
  destruct (_is_white_bear_directory_frame fs directory_path s0) as [Hself Hheap].
  pose proof (_is_white_bear_directory_not_false fs directory_path s0) as Hfalse.
  destruct (_is_white_bear_directory fs directory_path s0) as [[[]|e] s1];
    cbn [fst snd] in *; try done.
  assert (dictionaries_allocated s1) as Halloc1.
  { unfold dictionaries_allocated, get_articles, get_menus in *.
    by rewrite Hself, Hheap. }
  destruct (for_each_files _ _ _ _ _ Halloc1 Hload) as (Hfa & Hfm & Hfi).
  unfold get_articles, get_menus, get_index_page in *.
  rewrite Hself in Hfa, Hfm, Hfi.
  change (schemas_of (self s0)) with (schemas_of (self s)) in *.
  change (_article_documents (self s0)) with (_article_documents (self s)) in *.
  change (_menu_documents (self s0)) with (_menu_documents (self s)) in *.
  change (_index_document (self s0)) with (_index_document (self s)) in *.
  assert (forall r, deref s1 r = deref s r) as Hderef
    by (intros r; by apply deref_same_heap).
  split; [|split].
  - intros k. rewrite Hfa. by rewrite Hderef.
  - intros k. rewrite Hfm. by rewrite Hderef.
  - exact Hfi.
Qed.

(** C4, as the code has it.  A load on a loader that already holds
    documents keeps them and adds its own.  Whatever the outcome, the two
    dictionaries are the same objects as before, every key they held is
    still there, the document under a key is the old one unless the new
    pass enumerates a file of that name, keys are only added for names
    the new pass enumerates, and an index document that was set stays
    set.  When the load succeeds, each key of the article dictionary
    holds the article built from the last listed file of that name that
    the pass classified as an article, and otherwise the document it held
    before the load; likewise for menus and for the index document; so
    every listed file with a role is in its collection afterwards,
    beside the documents of the earlier load. *)
Theorem reload_keeps_previous_documents fs directory_path s :
  let s' := snd (load_directory fs directory_path s) in
  let files := glob_glob fs (directory_path +:+ "/*.html") in
  let names := List.map (filename_of directory_path) files in
  let schemas := schemas_of (self s) in
  (get_articles s' = get_articles s /\
   get_menus s' = get_menus s /\
   (forall r k d, r = get_articles s \/ r = get_menus s ->
      deref s r !! k = Some d -> k ∉ names -> deref s' r !! k = Some d) /\
   (forall r k, r = get_articles s \/ r = get_menus s ->
      is_Some (deref s r !! k) -> is_Some (deref s' r !! k)) /\
   (forall r k, r = get_articles s \/ r = get_menus s ->
      is_Some (deref s' r !! k) -> is_Some (deref s r !! k) \/ k ∈ names) /\
   (is_Some (get_index_page s) -> is_Some (get_index_page s'))) /\
  (dictionaries_allocated s ->
   fst (load_directory fs directory_path s) = Return tt ->
   (forall k, deref s' (get_articles s) !! k
              = match filed_under fs schemas directory_path TYPE_ARTICLE k files with
                | Some f => Some (document_of fs directory_path f TYPE_ARTICLE
                                    (Some (get_menus s)))
                | None => deref s (get_articles s) !! k
                end) /\
   (forall k, deref s' (get_menus s) !! k
              = match filed_under fs schemas directory_path TYPE_MENU k files with
                | Some f => Some (document_of fs directory_path f TYPE_MENU None)
                | None => deref s (get_menus s) !! k
                end) /\
   get_index_page s'
   = match filed_as_index fs schemas directory_path files with
     | Some f => Some (document_of fs directory_path f TYPE_INDEX None)
     | None => get_index_page s
     end /\
   (forall file, file ∈ files ->
      role_of fs schemas directory_path file = Some TYPE_ARTICLE ->
      exists f, f ∈ files /\
        filename_of directory_path f = filename_of directory_path file /\
        deref s' (get_articles s) !! filename_of directory_path file
        = Some (document_of fs directory_path f TYPE_ARTICLE (Some (get_menus s)))) /\
   (forall file, file ∈ files ->
      role_of fs schemas directory_path file = Some TYPE_MENU ->
      exists f, f ∈ files /\
        filename_of directory_path f = filename_of directory_path file /\
        deref s' (get_menus s) !! filename_of directory_path file
        = Some (document_of fs directory_path f TYPE_MENU None)) /\
   (forall file, file ∈ files ->
      role_of fs schemas directory_path file = Some TYPE_INDEX ->
      exists f, f ∈ files /\
        get_index_page s' = Some (document_of fs directory_path f TYPE_INDEX None))).
Proof.
  intros s' files names schemas.
  destruct (load_directory_frame fs directory_path s) as (_ & Ha & Hm & Hg).
  fold s' files names in Ha, Hm, Hg. split.
  { split; [done|]. split; [done|]. split; [|split; [|split]].
    - intros r k d _. apply (grows_keep _ _ _ Hg).
    - intros r k _. apply (grows_dom _ _ _ Hg).
    - intros r k _. apply (grows_new _ _ _ Hg).
    - apply (grows_index _ _ _ Hg). }
  intros Halloc Hok.
  assert (load_directory fs directory_path s = (Return tt, s')) as Hload.
  { unfold s'. destruct (load_directory fs directory_path s) as [o s1].
    cbn [fst snd] in *. by subst. }
  destruct (load_directory_files fs directory_path s s' Halloc Hload)
    as (Hfa & Hfm & Hfi).
  fold files schemas in Hfa, Hfm, Hfi. rewrite Ha, Hm in *.
  split; [exact Hfa|]. split; [exact Hfm|]. split; [exact Hfi|].
  split; [|split].
  - intros file Hin Hrole.
    destruct (last_with_is_Some
                (fun f => bool_decide (role_of fs schemas directory_path f = Some TYPE_ARTICLE)
                          && String.eqb (filename_of directory_path f)
                               (filename_of directory_path file)) files file Hin)
      as [f Hf].
    { rewrite bool_decide_eq_true_2 by done. by rewrite String.eqb_refl. }
    destruct (last_with_Some _ _ _ Hf) as [Hfin Htest].
    apply andb_true_iff in Htest as [_ Hname]. apply String.eqb_eq in Hname.
    exists f. split; [done|]. split; [done|].
    rewrite Hfa. unfold filed_under. by rewrite Hf.
  - intros file Hin Hrole.
    destruct (last_with_is_Some
                (fun f => bool_decide (role_of fs schemas directory_path f = Some TYPE_MENU)
                          && String.eqb (filename_of directory_path f)
                               (filename_of directory_path file)) files file Hin)
      as [f Hf].
    { rewrite bool_decide_eq_true_2 by done. by rewrite String.eqb_refl. }
    destruct (last_with_Some _ _ _ Hf) as [Hfin Htest].
    apply andb_true_iff in Htest as [_ Hname]. apply String.eqb_eq in Hname.
    exists f. split; [done|]. split; [done|].
    rewrite Hfm. unfold filed_under. by rewrite Hf.
  - intros file Hin Hrole.
    destruct (last_with_is_Some
                (fun f => bool_decide (role_of fs schemas directory_path f = Some TYPE_INDEX))
                files file Hin) as [f Hf].
    { by rewrite bool_decide_eq_true_2. }
    destruct (last_with_Some _ _ _ Hf) as [Hfin _].
    exists f. split; [done|]. rewrite Hfi. unfold filed_as_index. by rewrite Hf.
Qed.

(** C5, as the code has it.  A file that is opened and parses but
    satisfies none of the three schemas changes neither dictionary nor
    the index document.  If its name contains [google] or [404] the body
    returns normally and the load carries on with the rest of the
    listing; otherwise the load ends there with
    [UnrecognizedFileException] carrying the file name, and no later file
    is looked at.  For a skipped file in a listing of pairwise different
    names, a load that succeeds leaves under the file's name, in both
    dictionaries, exactly what was there before the load, and an index
    document bearing its name afterwards is the one from before the load:
    the pass puts the file into none of the three collections, and it is
    absent from them whenever nothing was filed under its name before. *)
Theorem unmatched_file_skipped_or_rejected fs directory_path s0 before file after s xml_doc :
  reaches fs directory_path s0 before file after s ->
  opened fs directory_path file ->
  parsed_as fs directory_path file = Parsed xml_doc ->
  schema_validate (xmlschema_article (self s)) xml_doc = false ->
  schema_validate (xmlschema_menu (self s)) xml_doc = false ->
  schema_validate (xmlschema_index (self s)) xml_doc = false ->
  let filename := filename_of directory_path file in
  let s' := validated [schema_article; schema_menu; schema_index] xml_doc s in
  let s'' := printed (schema_error_log (xmlschema_article (self s)) xml_doc) s' in
  (forall r, deref s' r = deref s r /\ deref s'' r = deref s r) /\
  get_index_page s' = get_index_page s /\
  get_index_page s'' = get_index_page s /\
  (if str_in "google" filename || str_in "404" filename then
     _prepare_documents_file fs directory_path file s = (Return tt, s') /\
     load_directory fs directory_path s0
     = for_each after (_prepare_documents_file fs directory_path) s'
   else
     exists e,
       load_directory fs directory_path s0 = (Raise e, s'') /\
       e = UnrecognizedFileException
             (exception_file_unrecognized Strings +:+ " " +:+ filename) /\
       str_in filename (message_of e) = true) /\
  (dictionaries_allocated s0 ->
   NoDup (List.map (filename_of directory_path) (before ++ file :: after)) ->
   forall s_end,
     load_directory fs directory_path s0 = (Return tt, s_end) ->
     deref s_end (get_articles s_end) !! filename
     = deref s0 (get_articles s0) !! filename /\
     deref s_end (get_menus s_end) !! filename
     = deref s0 (get_menus s0) !! filename /\
     (forall d, get_index_page s_end = Some d -> doc_filename d = filename ->
                get_index_page s0 = Some d) /\
     (deref s0 (get_articles s0) !! filename = None ->
      deref s0 (get_menus s0) !! filename = None ->
      (forall d, get_index_page s0 = Some d -> doc_filename d <> filename) ->
      deref s_end (get_articles s_end) !! filename = None /\
      deref s_end (get_menus s_end) !! filename = None /\
      (forall d, get_index_page s_end = Some d -> doc_filename d <> filename))).
Proof.
  intros Hreach Hopen Hparse HA HM HI filename s' s''.
  split; [done|]. split; [done|]. split; [done|]. split.
  { rewrite (load_directory_at _ _ _ _ _ _ _ Hreach). unfold bind.
    rewrite (_prepare_documents_file_parsed _ _ _ _ _ Hopen Hparse), HA, HM, HI.
    fold filename. destruct (_ || _); [done|].
    eexists. split_and!; [done..|]. cbn [message_of].
    do 2 apply str_in_append_l. apply str_in_refl. }
  intros Halloc Hnodup s_end Hload.
  pose proof (reaches_schemas _ _ _ _ _ _ _ Hreach) as Hsch.
  destruct Hreach as (Hglob & _).
  assert (role_of fs (schemas_of (self s0)) directory_path file = None) as Hrole.
  { rewrite <- Hsch. unfold role_of, schemas_of.
    destruct Hopen as (-> & -> & ->). cbn [andb]. by rewrite Hparse, HA, HM, HI. }
  assert (file ∈ before ++ file :: after) as Hfile
    by (apply elem_of_app; right; by left).
  destruct (load_directory_files fs directory_path s0 s_end Halloc Hload)
    as (Hfa & Hfm & Hfi).
  rewrite Hglob in Hfa, Hfm, Hfi.
  assert (forall t, filed_under fs (schemas_of (self s0)) directory_path t filename
                      (before ++ file :: after) = None) as Hnone.
  { intros t. apply last_with_None. intros f Hf.
    destruct (String.eqb_spec (filename_of directory_path f) filename) as [Heq|Hne];
      [|by rewrite andb_false_r].
    rewrite (NoDup_names_inj _ _ _ _ Hnodup Hf Hfile Heq), Hrole.
    by rewrite bool_decide_eq_false_2. }
  assert (forall d, get_index_page s_end = Some d -> doc_filename d = filename ->
                    get_index_page s0 = Some d) as Hindex.
  { intros d Hd Hname. rewrite Hfi in Hd.
    destruct (filed_as_index _ _ _ _) as [f|] eqn:Hf; [|done].
    injection Hd as <-. cbn [document_of doc_filename] in Hname.
    apply last_with_Some in Hf as [Hf Htest].
    rewrite (NoDup_names_inj _ _ _ _ Hnodup Hf Hfile Hname), Hrole in Htest.
    by rewrite bool_decide_eq_false_2 in Htest. }
  rewrite Hfa, Hfm, !Hnone.
  split; [done|]. split; [done|]. split; [exact Hindex|].
  intros Ha0 Hm0 Hi0. split; [done|]. split; [done|].
  intros d Hd Hname. by apply (Hi0 d (Hindex d Hd Hname)).
Qed.

(** *** Listed names and the paths the loop uses *)

Lemma starts_with_slash_append (a b : string) :
  a <> EmptyString -> starts_with_slash (a +:+ b) = starts_with_slash a.
Proof. by destruct a. Qed.

Lemma os_path_join_absolute (a b : string) :
  starts_with_slash b = true -> os_path_join a b = b.
Proof. unfold os_path_join. by intros ->. Qed.

Lemma os_path_join_relative (a b : string) :
  a <> EmptyString -> ends_with_slash a = false -> starts_with_slash b = false ->
  os_path_join a b = a +:+ "/" +:+ b.
Proof.
  intros Ha Hend Hb. unfold os_path_join. rewrite Hb, Hend.
  destruct (String.eqb_spec a EmptyString); done.
Qed.

(** X9. The loop joins the directory to each listed name, and joins it
    once more before parsing.  For a listed name that is absolute both
    joins give the name back: the loop body tests, parses and files the
    listed file itself, under its base name.  For a relative directory
    (not empty, no trailing separator), where the listing yields the
    directory, a separator and a name, the body tests the file at the
    directory repeated twice before the name, and passes over the listed
    name when that is not a regular file; when it is one, the body
    parses the file at the directory repeated three times before the
    name, and it is the content found there that is filed, or whose
    syntax error ends the load. *)
Theorem listed_names_are_joined_again fs path s :
  (forall file xml_doc,
     starts_with_slash file = true ->
     os_path_isfile fs file = true ->
     os_access fs file R_OK = true -> os_access fs file W_OK = true ->
     html_parse fs file = Parsed xml_doc ->
     schema_validate (xmlschema_article (self s)) xml_doc = true ->
     _prepare_documents_file fs path file s
     = (Return tt,
        dict_setitem (get_articles s) (os_path_basename file)
          (mk_WhitebearDocument (os_path_basename file) (os_path_realpath fs file)
             TYPE_ARTICLE (Some (get_menus s)))
          (validated [schema_article] xml_doc s))) /\
  (path <> EmptyString -> starts_with_slash path = false ->
   ends_with_slash path = false ->
   forall name,
     let listed := path +:+ "/" +:+ name in
     let tested := path +:+ "/" +:+ path +:+ "/" +:+ name in
     let parsed := path +:+ "/" +:+ path +:+ "/" +:+ path +:+ "/" +:+ name in
     (os_path_isfile fs tested = false ->
      _prepare_documents_file fs path listed s = (Return tt, s)) /\
     (os_path_isfile fs tested = true ->
      os_access fs tested R_OK = false \/ os_access fs tested W_OK = false ->
      _prepare_documents_file fs path listed s
      = (Raise (AccessException (exception_access_html Strings +:+ " " +:+ tested)), s)) /\
     (forall xml_doc,
        os_path_isfile fs tested = true ->
        os_access fs tested R_OK = true -> os_access fs tested W_OK = true ->
        html_parse fs parsed = Parsed xml_doc ->
        schema_validate (xmlschema_article (self s)) xml_doc = true ->
        _prepare_documents_file fs path listed s
        = (Return tt,
           dict_setitem (get_articles s) (os_path_basename tested)
             (mk_WhitebearDocument (os_path_basename tested) (os_path_realpath fs tested)
                TYPE_ARTICLE (Some (get_menus s)))
             (validated [schema_article] xml_doc s))) /\
     (forall diagnostic,
        os_path_isfile fs tested = true ->
        os_access fs tested R_OK = true -> os_access fs tested W_OK = true ->
        html_parse fs parsed = SyntaxFailure diagnostic ->
        _prepare_documents_file fs path listed s
        = (Raise (UnrecognizedFileException
                    (exception_html_syntax_error Strings +:+ newline +:+ diagnostic)),
           s))).
Proof.
  split.
  - intros file xml_doc Habs Hfile Hr Hw Hparse Hart.
    assert (os_path_join path file = file) as Hjoin
      by by apply os_path_join_absolute.
    rewrite (_prepare_documents_file_parsed fs path file xml_doc s).
    + rewrite Hart. unfold document_of, filename_of. by rewrite Hjoin.
    + unfold opened. by rewrite Hjoin.
    + unfold parsed_as. by rewrite !Hjoin.
  - intros Hne Hrel Hend name listed tested parsed.
    assert (starts_with_slash listed = false) as Hlisted
      by (unfold listed; by rewrite starts_with_slash_append).
    assert (os_path_join path listed = tested) as Hjoin
      by by apply os_path_join_relative.
    assert (os_path_join path tested = parsed) as Hjoin2.
    { apply os_path_join_relative; [done..|].
      unfold tested. by rewrite starts_with_slash_append. }
    split; [|split; [|split]].
    + intros Hfile. apply _prepare_documents_file_not_a_file. by rewrite Hjoin.
    + intros Hfile Hacc.
      rewrite (_prepare_documents_file_no_access fs path listed s);
        rewrite Hjoin; done.
    + intros xml_doc Hfile Hr Hw Hparse Hart.
      rewrite (_prepare_documents_file_parsed fs path listed xml_doc s).
      * rewrite Hart. unfold document_of, filename_of. by rewrite Hjoin.
      * unfold opened. by rewrite Hjoin.
      * unfold parsed_as. by rewrite Hjoin, Hjoin2.
    + intros diagnostic Hfile Hr Hw Hparse.
      apply _prepare_documents_file_syntax.
      * unfold opened. by rewrite Hjoin.
      * unfold parsed_as. by rewrite Hjoin, Hjoin2.
Qed.

(** X10. Listed names that do not lead to a regular file are passed over
    without a check, a validation or an error: when the gate lets the
    directory through and none of the joined names is a regular file,
    the load returns normally and the dictionaries and the index
    document are what they were. *)
Theorem load_directory_skips_what_is_not_a_file fs directory_path s :
  gate_passes fs (self s) directory_path = true ->
  (forall file, file ∈ glob_glob fs (directory_path +:+ "/*.html") ->
     os_path_isfile fs (os_path_join directory_path file) = false) ->
  fst (load_directory fs directory_path s) = Return tt /\
  heap (snd (load_directory fs directory_path s)) = heap s /\
  get_index_page (snd (load_directory fs directory_path s)) = get_index_page s /\
  snd (load_directory fs directory_path s)
  = snd (_is_white_bear_directory fs directory_path
           (with_self (set_directory_path directory_path) s)).
Proof.
  intros Hgate Hfiles. rewrite load_directory_run.
  set (s0 := with_self (set_directory_path directory_path) s).
  pose proof (_is_white_bear_directory_passes fs directory_path s0) as Hpass.
  destruct (_is_white_bear_directory_frame fs directory_path s0) as [Hself Hheap].
  apply Hpass in Hgate.
  destruct (_is_white_bear_directory fs directory_path s0) as [[[]|e] s1];
    cbn [fst snd] in *; try done.
  unfold _prepare_documents.
  assert (forall files s2,
            (forall file, file ∈ files ->
               os_path_isfile fs (os_path_join directory_path file) = false) ->
            for_each files (_prepare_documents_file fs directory_path) s2
            = (Return tt, s2)) as Hskip.
  { induction files as [|file files IH]; intros s2 Hall; [done|].
    cbn [for_each].
    erewrite bind_run
      by (apply _prepare_documents_file_not_a_file, Hall; by left).
    apply IH. intros f Hf. apply Hall. by right. }
  rewrite Hskip by done. cbn [fst snd].
  unfold get_index_page. by rewrite Hself, Hheap.
Qed.


(** X15. When the gate turns a directory away the load ends with an
    exception and the loader keeps every document it held, both
    dictionaries and the index document unchanged, while
    [get_directory] already gives the directory that was turned away. *)
Theorem failed_gate_keeps_documents_under_new_path fs directory_path s :
  gate_passes fs (self s) directory_path = false ->
  (exists e, fst (load_directory fs directory_path s) = Raise e) /\
  get_directory (snd (load_directory fs directory_path s)) = directory_path /\
  get_articles (snd (load_directory fs directory_path s)) = get_articles s /\
  get_menus (snd (load_directory fs directory_path s)) = get_menus s /\
  heap (snd (load_directory fs directory_path s)) = heap s /\
  get_index_page (snd (load_directory fs directory_path s)) = get_index_page s.
Proof.
  intros Hgate. rewrite load_directory_run.
  set (s0 := with_self (set_directory_path directory_path) s).
  pose proof (_is_white_bear_directory_passes fs directory_path s0) as Hpass.
  pose proof (_is_white_bear_directory_not_false fs directory_path s0) as Hfalse.
  destruct (_is_white_bear_directory_frame fs directory_path s0) as [Hself Hheap].
  change (gate_passes fs (self s0) directory_path)
    with (gate_passes fs (self s) directory_path) in Hpass.
  destruct (_is_white_bear_directory fs directory_path s0) as [[[]|e] s1];
    cbn [fst snd] in *.
  - rewrite (proj1 Hpass eq_refl) in Hgate. discriminate.
  - done.
  - unfold get_directory, get_articles, get_menus, get_index_page.
    rewrite Hself, Hheap. split_and!; try done. by exists e.
Qed.

End Loader.

End DirectoryLoader.

(** ** Image self-checks *)

Module Document.

(** [wx.NullColour] and [wx.RED]. *)
Inductive Colour := NullColour | RED.

(** [Constants.Constants] is not among the sources: the bounds, the
    messages and the placeholder values are taken as parameters. *)
Record NumberConstants := {
  article_image_title_min : Z;
  article_image_title_max : Z;
  article_image_alt_min : Z;
  article_image_alt_max : Z
}.

Record StringConstants := {
  seo_error_link_title_length : string;
  seo_error_default_value : string;
  seo_error_image_alt_length : string;
  label_article_image_link_title : string;
  label_article_image_alt : string
}.

Definition len (s : string) : Z := Z.of_nat (String.length s).

Section BaseImage.

(** [wx.Image] *)
Variable Image : Type.
Variable Numbers : NumberConstants.
Variable Strings : StringConstants.

(** The attributes of a [BaseImage]; [None] is Python's [None]. *)
Record BaseImage := {
  _link_title : string;
  _link_title_error_message : string;
  _image_alt : string;
  _image_alt_error_message : string;
  _original_image_path : string;
  _thumbnail_path : string;
  _full_filename : string;
  _thumbnail_filename : string;
  _image : option Image;
  _status_color : option Colour
}.

Definition __init__ (title image_alt original_image_path thumbnail_path
    full_filename thumbnail_filename : string) : BaseImage :=
  {| _link_title := title;
     _link_title_error_message := EmptyString;
     _image_alt := image_alt;
     _image_alt_error_message := EmptyString;
     _original_image_path := original_image_path;
     _thumbnail_path := thumbnail_path;
     _full_filename := full_filename;
     _thumbnail_filename := thumbnail_filename;
     _image := None;
     _status_color := None |}.

Definition set_link_title_error_message (m : string) (self : BaseImage) : BaseImage :=
  {| _link_title := _link_title self;
     _link_title_error_message := m;
     _image_alt := _image_alt self;
     _image_alt_error_message := _image_alt_error_message self;
     _original_image_path := _original_image_path self;
     _thumbnail_path := _thumbnail_path self;
     _full_filename := _full_filename self;
     _thumbnail_filename := _thumbnail_filename self;
     _image := _image self;
     _status_color := _status_color self |}.

Definition set_image_alt_error_message (m : string) (self : BaseImage) : BaseImage :=
  {| _link_title := _link_title self;
     _link_title_error_message := _link_title_error_message self;
     _image_alt := _image_alt self;
     _image_alt_error_message := m;
     _original_image_path := _original_image_path self;
     _thumbnail_path := _thumbnail_path self;
     _full_filename := _full_filename self;
     _thumbnail_filename := _thumbnail_filename self;
     _image := _image self;
     _status_color := _status_color self |}.

Definition set_status_color (c : Colour) (self : BaseImage) : BaseImage :=
  {| _link_title := _link_title self;
     _link_title_error_message := _link_title_error_message self;
     _image_alt := _image_alt self;
     _image_alt_error_message := _image_alt_error_message self;
     _original_image_path := _original_image_path self;
     _thumbnail_path := _thumbnail_path self;
     _full_filename := _full_filename self;
     _thumbnail_filename := _thumbnail_filename self;
     _image := _image self;
     _status_color := Some c |}.

(** [seo_test_self]: the object after the call and the value returned.
    Each [if] of the source is one step on the pair of the object and the
    local [result]. *)
Definition seo_test_self (self : BaseImage) : BaseImage * bool :=
  (* Clear all error before each retest *)
  let self := set_link_title_error_message EmptyString self in
  let self := set_image_alt_error_message EmptyString self in
  let self := set_status_color NullColour self in
  let result := true in
  (* Check article image link title *)
  let '(self, result) :=
    if (len (_link_title self) <? article_image_title_min Numbers)%Z
       || (len (_link_title self) >? article_image_title_max Numbers)%Z
    then (set_link_title_error_message (seo_error_link_title_length Strings) self, false)
    else (self, result) in
  let '(self, result) :=
    if String.eqb (_link_title self) (label_article_image_link_title Strings)
    then (set_link_title_error_message (seo_error_default_value Strings) self, false)
    else (self, result) in
  (* Check article image alt *)
  let '(self, result) :=
    if (len (_image_alt self) <? article_image_alt_min Numbers)%Z
       || (len (_image_alt self) >? article_image_alt_max Numbers)%Z
    then (set_image_alt_error_message (seo_error_image_alt_length Strings) self, false)
    else (self, result) in
  let '(self, result) :=
    if String.eqb (_image_alt self) (label_article_image_alt Strings)
    then (set_image_alt_error_message (seo_error_default_value Strings) self, false)
    else (self, result) in
  let self := if negb result then set_status_color RED self else self in
  (self, result).

Definition get_link_title (self : BaseImage) : string * string :=
  (_link_title self, _link_title_error_message self).

Definition get_image_alt (self : BaseImage) : string * string :=
  (_image_alt self, _image_alt_error_message self).

Definition get_status_color (self : BaseImage) : option Colour := _status_color self.

(** *** Properties of the self-check *)

(** The two rules on a field, as the source tests them. *)
Definition title_in_bounds (self : BaseImage) : Prop :=
  (article_image_title_min Numbers <= len (_link_title self)
   <= article_image_title_max Numbers)%Z.

Definition alt_in_bounds (self : BaseImage) : Prop :=
  (article_image_alt_min Numbers <= len (_image_alt self)
   <= article_image_alt_max Numbers)%Z.

Definition alt_passes (self : BaseImage) : Prop :=
  alt_in_bounds self /\ _image_alt self <> label_article_image_alt Strings.

Lemma out_of_bounds_spec (n lo hi : Z) :
  ((n <? lo)%Z || (n >? hi)%Z = false) <-> (lo <= n <= hi)%Z.
Proof.
  rewrite orb_false_iff, Z.ltb_ge, Z.gtb_ltb, Z.ltb_ge. tauto.
Qed.

(** The outcome of [seo_test_self] in closed form. *)
Definition title_too_short_or_long (self : BaseImage) : bool :=
  (len (_link_title self) <? article_image_title_min Numbers)%Z
  || (len (_link_title self) >? article_image_title_max Numbers)%Z.

Definition title_is_default (self : BaseImage) : bool :=
  String.eqb (_link_title self) (label_article_image_link_title Strings).

Definition alt_too_short_or_long (self : BaseImage) : bool :=
  (len (_image_alt self) <? article_image_alt_min Numbers)%Z
  || (len (_image_alt self) >? article_image_alt_max Numbers)%Z.

Definition alt_is_default (self : BaseImage) : bool :=
  String.eqb (_image_alt self) (label_article_image_alt Strings).

Ltac read_fields :=
  cbn [_link_title _image_alt set_link_title_error_message
       set_image_alt_error_message set_status_color].

Lemma seo_test_self_run (self : BaseImage) :
  let result := negb (title_too_short_or_long self) && negb (title_is_default self)
                && negb (alt_too_short_or_long self) && negb (alt_is_default self) in
  seo_test_self self =
    ({| _link_title := _link_title self;
        _link_title_error_message :=
          if title_is_default self then seo_error_default_value Strings
          else if title_too_short_or_long self then seo_error_link_title_length Strings
          else EmptyString;
        _image_alt := _image_alt self;
        _image_alt_error_message :=
          if alt_is_default self then seo_error_default_value Strings
          else if alt_too_short_or_long self then seo_error_image_alt_length Strings
          else EmptyString;
        _original_image_path := _original_image_path self;
        _thumbnail_path := _thumbnail_path self;
        _full_filename := _full_filename self;
        _thumbnail_filename := _thumbnail_filename self;
        _image := _image self;
        _status_color := Some (if result then NullColour else RED) |},
     result).
Proof.
  unfold seo_test_self, title_too_short_or_long, title_is_default,
    alt_too_short_or_long, alt_is_default.
  cbn [_link_title _image_alt set_link_title_error_message
       set_image_alt_error_message set_status_color].
  destruct ((len (_link_title self) <? _)%Z || _); read_fields;
    destruct (String.eqb (_link_title self) _); read_fields;
    destruct ((len (_image_alt self) <? _)%Z || _); read_fields;
    destruct (String.eqb (_image_alt self) _); reflexivity.
Qed.

Lemma alt_passes_spec (self : BaseImage) :
  alt_passes self <->
  negb (alt_too_short_or_long self) && negb (alt_is_default self) = true.
Proof.
  unfold alt_passes, alt_in_bounds, alt_too_short_or_long, alt_is_default.
  rewrite andb_true_iff, !negb_true_iff, out_of_bounds_spec, String.eqb_neq. tauto.
Qed.

(** C8, as the code has it.  A link title equal to the placeholder makes
    the check fail with the placeholder message, whatever its length; a
    link title one character short of the minimum, and not the
    placeholder, makes it fail with the length message; a link title
    within the bounds and not the placeholder leaves the link-title
    message empty, and the call returns true with the neutral colour
    exactly when the image alt passes its own two rules, and false with
    red otherwise. *)
Theorem link_title_validation (self : BaseImage) :
  let self' := fst (seo_test_self self) in
  let result := snd (seo_test_self self) in
  (_link_title self = label_article_image_link_title Strings ->
     result = false /\ get_status_color self' = Some RED /\
     snd (get_link_title self') = seo_error_default_value Strings) /\
  (len (_link_title self) = (article_image_title_min Numbers - 1)%Z ->
   _link_title self <> label_article_image_link_title Strings ->
     result = false /\ get_status_color self' = Some RED /\
     snd (get_link_title self') = seo_error_link_title_length Strings) /\
  (title_in_bounds self ->
   _link_title self <> label_article_image_link_title Strings ->
     snd (get_link_title self') = EmptyString /\
     (alt_passes self ->
        result = true /\ get_status_color self' = Some NullColour /\
        snd (get_image_alt self') = EmptyString) /\
     (~ alt_passes self ->
        result = false /\ get_status_color self' = Some RED)).
Proof.
  cbn zeta. rewrite seo_test_self_run. cbn zeta.
  cbn [fst snd get_status_color get_link_title get_image_alt _status_color
       _link_title_error_message _image_alt_error_message].
  split_and!.
  - intros Hdefault. apply String.eqb_eq in Hdefault.
    unfold title_is_default at 1 2 3. rewrite Hdefault.
    by rewrite andb_false_r.
  - intros Hlen Hne. apply String.eqb_neq in Hne.
    unfold title_is_default. rewrite Hne.
    replace (title_too_short_or_long self) with true; [done|].
    unfold title_too_short_or_long. symmetry. apply orb_true_iff. left.
    apply Z.ltb_lt. lia.
  - intros Hbounds Hne. apply String.eqb_neq in Hne.
    apply out_of_bounds_spec in Hbounds.
    unfold title_too_short_or_long, title_is_default. rewrite Hbounds, Hne.
    cbn [negb andb]. split_and!; [done|..].
    + intros Halt. pose proof Halt as Halt'. apply alt_passes_spec in Halt.
      apply andb_true_iff in Halt as [Hb Hd]. rewrite Hb, Hd. cbn.
      apply negb_true_iff in Hb, Hd. fold (alt_is_default self) in *.
      by rewrite Hb, Hd.
    + intros Halt. rewrite alt_passes_spec in Halt.
      apply not_true_is_false in Halt. by rewrite Halt.
Qed.

(** C9. The call first clears both messages and the colour, so what it
    leaves in them, and what it returns, is a function of the link title
    and the image alt alone: two images that agree on these two fields,
    whatever earlier calls left in their messages and colour, come out
    with the same messages, colour and result; calling again changes
    nothing; and a call that returns true leaves both messages empty and
    the colour neutral. *)
Theorem seo_test_self_recomputes (a b : BaseImage) :
  _link_title a = _link_title b ->
  _image_alt a = _image_alt b ->
  let a' := fst (seo_test_self a) in
  let b' := fst (seo_test_self b) in
  snd (seo_test_self a) = snd (seo_test_self b) /\
  get_link_title a' = get_link_title b' /\
  get_image_alt a' = get_image_alt b' /\
  get_status_color a' = get_status_color b' /\
  seo_test_self a' = seo_test_self a /\
  (snd (seo_test_self a) = true ->
     snd (get_link_title a') = EmptyString /\ snd (get_image_alt a') = EmptyString /\
     get_status_color a' = Some NullColour).
Proof.
  intros Htitle Halt. cbn zeta.
  rewrite (seo_test_self_run (fst (seo_test_self a))).
  rewrite !seo_test_self_run. cbn zeta.
  unfold title_too_short_or_long, title_is_default, alt_too_short_or_long,
    alt_is_default, get_link_title, get_image_alt, get_status_color.
  cbn [fst snd _status_color _link_title _image_alt _link_title_error_message
       _image_alt_error_message _original_image_path _thumbnail_path
       _full_filename _thumbnail_filename _image].
  rewrite Htitle, Halt. split_and!; try reflexivity.
  destruct ((len (_link_title b) <? _)%Z || _);
    destruct (String.eqb (_link_title b) _);
    destruct ((len (_image_alt b) <? _)%Z || _);
    destruct (String.eqb (_image_alt b) _); done.
Qed.


(** *** The remaining accessors *)

Definition get_original_image_path (self : BaseImage) : string :=
  _original_image_path self.

Definition get_thumbnail_image_path (self : BaseImage) : string :=
  _thumbnail_path self.

Definition get_thumbnail_filename (self : BaseImage) : string :=
  _thumbnail_filename self.

Definition get_full_filename (self : BaseImage) : string := _full_filename self.

Definition get_image (self : BaseImage) : option Image := _image self.

(** [__str__]: the format string with its four fields filled in. *)
Definition __str__ (self : BaseImage) : string :=
  "Base image: original: " +:+ _original_image_path self +:+
  ", thumbnail: " +:+ _thumbnail_path self +:+
  ", title: " +:+ _link_title self +:+
  ", alt: " +:+ _image_alt self.

(** *** Further properties of the self-check *)

Lemma title_in_bounds_spec (self : BaseImage) :
  title_in_bounds self <-> title_too_short_or_long self = false.
Proof. unfold title_in_bounds, title_too_short_or_long. by rewrite out_of_bounds_spec. Qed.

Lemma alt_in_bounds_spec (self : BaseImage) :
  alt_in_bounds self <-> alt_too_short_or_long self = false.
Proof. unfold alt_in_bounds, alt_too_short_or_long. by rewrite out_of_bounds_spec. Qed.

(** X11. The image alt is checked like the link title.  An alt equal to
    its placeholder makes the check fail with the placeholder message,
    whatever its length; an alt shorter than the minimum or longer than
    the maximum, and not the placeholder, makes it fail with the
    alt-length message; an alt within the bounds and not the placeholder
    leaves the alt message empty. *)
Theorem image_alt_validation (self : BaseImage) :
  let self' := fst (seo_test_self self) in
  let result := snd (seo_test_self self) in
  (_image_alt self = label_article_image_alt Strings ->
     result = false /\ get_status_color self' = Some RED /\
     snd (get_image_alt self') = seo_error_default_value Strings) /\
  (~ alt_in_bounds self ->
   _image_alt self <> label_article_image_alt Strings ->
     result = false /\ get_status_color self' = Some RED /\
     snd (get_image_alt self') = seo_error_image_alt_length Strings) /\
  (alt_passes self -> snd (get_image_alt self') = EmptyString).
Proof.
  cbn zeta. rewrite seo_test_self_run. cbn zeta.
  cbn [fst snd get_status_color get_image_alt _status_color _image_alt_error_message].
  split_and!.
  - intros Hdefault. apply String.eqb_eq in Hdefault.
    unfold alt_is_default at 1 2 3. rewrite Hdefault.
    by rewrite !andb_false_r.
  - intros Hbounds Hne. apply String.eqb_neq in Hne.
    rewrite alt_in_bounds_spec in Hbounds. apply not_false_is_true in Hbounds.
    unfold alt_is_default. rewrite Hne, Hbounds.
    by rewrite andb_false_r.
  - intros [Hbounds Hne]. apply String.eqb_neq in Hne.
    apply alt_in_bounds_spec in Hbounds.
    unfold alt_is_default. by rewrite Hne, Hbounds.
Qed.

(** X12. [seo_test_self] returns [True] exactly when all four rules hold:
    the link title and the image alt are each within their bounds and
    neither is its placeholder.  After the call the colour is always
    set: neutral when it returned [True], red when it returned [False]. *)
Theorem seo_test_self_result (self : BaseImage) :
  (snd (seo_test_self self) = true
   <-> title_in_bounds self /\
       _link_title self <> label_article_image_link_title Strings /\
       alt_in_bounds self /\
       _image_alt self <> label_article_image_alt Strings) /\
  get_status_color (fst (seo_test_self self))
  = Some (if snd (seo_test_self self) then NullColour else RED).
Proof.
  rewrite seo_test_self_run. cbn zeta. cbn [fst snd get_status_color _status_color].
  split; [|done].
  rewrite !andb_true_iff, !negb_true_iff, title_in_bounds_spec, alt_in_bounds_spec.
  unfold title_is_default, alt_is_default. rewrite !String.eqb_neq. tauto.
Qed.

(** X13. The check writes the two messages and the colour and nothing
    else: the link title, the image alt, both paths, both file names,
    the image and the text [__str__] gives are after the call what they
    were before. *)
Theorem seo_test_self_keeps_fields (self : BaseImage) :
  let self' := fst (seo_test_self self) in
  fst (get_link_title self') = fst (get_link_title self) /\
  fst (get_image_alt self') = fst (get_image_alt self) /\
  get_original_image_path self' = get_original_image_path self /\
  get_thumbnail_image_path self' = get_thumbnail_image_path self /\
  get_thumbnail_filename self' = get_thumbnail_filename self /\
  get_full_filename self' = get_full_filename self /\
  get_image self' = get_image self /\
  __str__ self' = __str__ self.
Proof. cbn zeta. rewrite seo_test_self_run. cbn zeta. done. Qed.

(** X14. Each message answers for its own field only: the link-title
    message after a check is decided by the link title alone, whatever
    the image alt is, and the alt message by the image alt alone,
    whatever the link title is. *)
Theorem seo_messages_are_per_field (a b : BaseImage) :
  (_link_title a = _link_title b ->
   snd (get_link_title (fst (seo_test_self a)))
   = snd (get_link_title (fst (seo_test_self b)))) /\
  (_image_alt a = _image_alt b ->
   snd (get_image_alt (fst (seo_test_self a)))
   = snd (get_image_alt (fst (seo_test_self b)))).
Proof.
  rewrite !seo_test_self_run. cbn zeta.
  cbn [fst snd get_link_title get_image_alt _link_title_error_message
       _image_alt_error_message].
  unfold title_is_default, title_too_short_or_long, alt_is_default,
    alt_too_short_or_long.
  split; by intros ->.
Qed.

End BaseImage.

End Document.

(** ** A concrete site, used to run the loader *)

Module Site.
Import Py DirectoryLoader.

(** Pages by the schemas they satisfy. *)
Inductive Page :=
  | index_page | article_page | menu_page | plain_page | article_menu_page.

Definition is_one_of (ps : list Page) (p : Page) : bool :=
  existsb (fun q => match p, q with
                    | index_page, index_page | article_page, article_page
                    | menu_page, menu_page | plain_page, plain_page
                    | article_menu_page, article_menu_page => true
                    | _, _ => false
                    end) ps.

Definition Fetch_schema (name : string) : XMLSchema Page :=
  if String.eqb name "schema_index.xsd" then
    {| schema_validate := is_one_of [index_page];
       schema_error_log := fun p => if is_one_of [index_page] p then EmptyString else "not an index" |}
  else if String.eqb name "schema_article.xsd" then
    {| schema_validate := is_one_of [article_page; article_menu_page];
       schema_error_log := fun p => if is_one_of [article_page; article_menu_page] p then EmptyString
                                    else "not an article" |}
  else
    {| schema_validate := is_one_of [menu_page; article_menu_page];
       schema_error_log := fun p => if is_one_of [menu_page; article_menu_page] p then EmptyString
                                    else "not a menu" |}.

Definition Strings : StringConstants :=
  {| exception_access := "Can not access directory";
     exception_index := "Missing index.html in";
     exception_not_white_bear := "Not a whitebear directory";
     exception_html_syntax_error := "Html syntax error";
     exception_access_html := "Can not access file";
     exception_file_unrecognized := "Unrecognized file" |}.

(** A file of a directory listing: name, permissions, parse result. *)
Record File := {
  file_name : string;
  readable : bool;
  writable : bool;
  content : ParseResult Page
}.

Definition file (name : string) (p : Page) : File :=
  {| file_name := name; readable := true; writable := true; content := Parsed Page p |}.

Definition find_file (root : string) (files : list File) (p : string) : option File :=
  List.find (fun f => String.eqb (root +:+ "/" +:+ file_name f) p) files.

Definition is_html (name : string) : bool :=
  String.eqb (String.substring (String.length name - 5) 5 name) ".html".

(** The file system holding one directory [root] with the given files,
    listed by [glob] in the given order; the directory is readable, and
    writable if [root_writable]. *)
Definition directory_with (root_writable : bool) (root : string) (files : list File)
    : FileSystem Page :=
  {| os_access := fun p m =>
       if String.eqb p root then
         match m with R_OK => true | W_OK => root_writable end
       else match find_file root files p with
            | Some f => match m with R_OK => readable f | W_OK => writable f end
            | None => false
            end;
     os_path_exists := fun p =>
       String.eqb p root || bool_decide (is_Some (find_file root files p));
     os_path_isfile := fun p => bool_decide (is_Some (find_file root files p));
     os_path_realpath := fun p => p;
     glob_glob := fun pattern =>
       if String.eqb pattern (root +:+ "/*.html") then
         List.map (fun f => root +:+ "/" +:+ file_name f)
                  (List.filter (fun f => is_html (file_name f)) files)
       else [];
     html_parse := fun p =>
       match find_file root files p with
       | Some f => content f
       | None => ReadFailure Page "failed to load external entity"
       end |}.

Definition directory := directory_with true.

Definition fresh_loader : State Page := DirectoryLoader.__init__ Page Fetch_schema ∅.

(** The state after the gate, and the state in which the loop arrives
    after the files listed in [before]. *)
Definition after_gate (fs : FileSystem Page) (path : string) (s0 : State Page) : State Page :=
  snd (_is_white_bear_directory Page Strings fs path
         (with_self Page (set_directory_path Page path) s0)).

Definition arriving (fs : FileSystem Page) (path : string) (s0 : State Page)
    (before : list string) : State Page :=
  snd (for_each Page before (_prepare_documents_file Page Strings fs path)
         (after_gate fs path s0)).

(** A site with every kind of page. *)
Definition web : FileSystem Page :=
  directory "/web"
    [file "index.html" index_page; file "a.html" article_page;
     file "both.html" article_menu_page; file "m.html" menu_page;
     file "google1a2b.html" plain_page; file "404.html" plain_page;
     file "z.html" article_page].

(** A second site. *)
Definition other : FileSystem Page :=
  directory "/other"
    [file "index.html" index_page; file "c.html" article_page;
     file "n.html" menu_page].

(** A site with a page no schema accepts. *)
Definition with_notes : FileSystem Page :=
  directory "/web"
    [file "index.html" index_page; file "a.html" article_page;
     file "notes.html" plain_page; file "m.html" menu_page].

(** A site with a file lxml rejects. *)
Definition with_broken : FileSystem Page :=
  directory "/web"
    [file "index.html" index_page; file "a.html" article_page;
     {| file_name := "broken.html"; readable := true; writable := true;
        content := SyntaxFailure Page "Document is empty, line 1, column 1 (broken.html, line 1)" |};
     file "m.html" menu_page].

(** A site with one read-only article. *)
Definition with_read_only : FileSystem Page :=
  directory "/web"
    [file "index.html" index_page; file "a.html" article_page;
     {| file_name := "b.html"; readable := true; writable := false;
        content := Parsed Page article_page |};
     file "m.html" menu_page].

(** A directory without [index.html], one whose [index.html] is not an
    index page, and a read-only directory without [index.html]. *)
Definition no_index : FileSystem Page := directory "/empty" [file "a.html" article_page].

Definition foreign : FileSystem Page := directory "/foreign" [file "index.html" plain_page].

Definition read_only_directory : FileSystem Page := directory_with false "/locked" [].


Lemma reaches_arriving (fs : FileSystem Page) (path : string) (s0 : State Page)
    (before : list string) (file : string) (after : list string) :
  glob_glob Page fs (path +:+ "/*.html") = before ++ file :: after ->
  fst (_is_white_bear_directory Page Strings fs path
         (with_self Page (set_directory_path Page path) s0)) = Return true ->
  fst (for_each Page before (_prepare_documents_file Page Strings fs path)
         (after_gate fs path s0)) = Return tt ->
  reaches Page Strings fs path s0 before file after (arriving fs path s0 before).
Proof.
  intros Hglob Hgate Hloop. split; [done|]. exists (after_gate fs path s0).
  unfold arriving, after_gate in *. split.
  - destruct (_is_white_bear_directory _ _ _ _ _) as [o s1]; cbn in *. by subst.
  - destruct (for_each _ _ _ _) as [o s1]; cbn in *. by subst.
Defined.

(** *** Runs of the loader on these sites *)

Lemma classification_precedence_witness :
  let s := arriving web "/web" fresh_loader ["/web/index.html"; "/web/a.html"] in
  let both := snd (_prepare_documents_file Page Strings web "/web" "/web/both.html" s) in
  let menu := _prepare_documents_file Page Strings web "/web" "/web/m.html" both in
  let index := _prepare_documents_file Page Strings web "/web" "/web/index.html" both in
  (validations Page both = validations Page s ++ [(schema_article, article_menu_page)] /\
   get_index_page Page both = get_index_page Page s /\
   deref Page both (get_menus Page both) = deref Page s (get_menus Page s) /\
   deref Page both (get_articles Page both) !! "both.html"
   = Some (mk_WhitebearDocument "both.html" "/web/both.html" TYPE_ARTICLE
             (Some (get_menus Page s)))) /\
  (menu = (Return tt,
           dict_setitem Page (get_menus Page both) "m.html"
             (mk_WhitebearDocument "m.html" "/web/m.html" TYPE_MENU None)
             (validated Page [schema_article; schema_menu] menu_page both)) /\
   deref Page (snd menu) (get_menus Page (snd menu)) !! "m.html"
   = Some (mk_WhitebearDocument "m.html" "/web/m.html" TYPE_MENU None) /\
   deref Page (snd menu) (get_articles Page (snd menu))
   = deref Page both (get_articles Page both)) /\
  (index = (Return tt,
            with_self Page
              (set_index_document Page
                 (mk_WhitebearDocument "index.html" "/web/index.html" TYPE_INDEX None))
              (validated Page [schema_article; schema_menu; schema_index] index_page both)) /\
   get_index_page Page (snd index)
   = Some (mk_WhitebearDocument "index.html" "/web/index.html" TYPE_INDEX None) /\
   deref Page (snd index) (get_articles Page both)
   = deref Page both (get_articles Page both)).
Proof.
  intros s both menu index. split; [|split].
  - destruct (classification_precedence Page Strings web "/web" "/web/both.html"
                article_menu_page s) as (_ & _ & _ & H & _ & _);
      [repeat split; vm_compute; reflexivity | vm_compute; reflexivity |].
    destruct H as (Hv & Hi & Hm & Ha); [vm_compute; reflexivity|].
    split; [exact Hv|]. split; [exact Hi|].
    split; [apply Hm; vm_compute; discriminate |].
    apply Ha. vm_compute. eexists. reflexivity.
  - destruct (classification_precedence Page Strings web "/web" "/web/m.html"
                menu_page both) as (_ & Heq & _ & _ & H & _);
      [repeat split; vm_compute; reflexivity | vm_compute; reflexivity |].
    destruct H as (_ & _ & Ha & Hm); [vm_compute; reflexivity..|].
    split; [apply Heq; vm_compute; reflexivity|].
    split; [apply Hm; vm_compute; eexists; reflexivity|].
    apply Ha. vm_compute; discriminate.
  - destruct (classification_precedence Page Strings web "/web" "/web/index.html"
                index_page both) as (_ & _ & Heq & _ & _ & H);
      [repeat split; vm_compute; reflexivity | vm_compute; reflexivity |].
    destruct H as (_ & Hi & _ & Hd); [vm_compute; reflexivity..|].
    split; [apply Heq; vm_compute; reflexivity|].
    split; [exact Hi | apply Hd].
Defined.

Lemma unmatched_file_skipped_or_rejected_witness :
  (let s := arriving web "/web" fresh_loader
              ["/web/index.html"; "/web/a.html"; "/web/both.html"; "/web/m.html"] in
   let s' := validated Page [schema_article; schema_menu; schema_index] plain_page s in
   let s_end := snd (load_directory Page Strings web "/web" fresh_loader) in
   (forall r, deref Page s' r = deref Page s r) /\
   get_index_page Page s' = get_index_page Page s /\
   _prepare_documents_file Page Strings web "/web" "/web/google1a2b.html" s = (Return tt, s') /\
   load_directory Page Strings web "/web" fresh_loader
   = for_each Page ["/web/404.html"; "/web/z.html"]
       (_prepare_documents_file Page Strings web "/web") s' /\
   deref Page s_end (get_articles Page s_end) !! "google1a2b.html" = None /\
   deref Page s_end (get_menus Page s_end) !! "google1a2b.html" = None /\
   (forall d, get_index_page Page s_end = Some d -> doc_filename d <> "google1a2b.html")) /\
  (let s := arriving with_notes "/web" fresh_loader ["/web/index.html"; "/web/a.html"] in
   load_directory Page Strings with_notes "/web" fresh_loader
   = (Raise (UnrecognizedFileException "Unrecognized file notes.html"),
      printed Page "not an article"
        (validated Page [schema_article; schema_menu; schema_index] plain_page s)) /\
   str_in "notes.html" "Unrecognized file notes.html" = true).
Proof.
  split.
  - intros s s' s_end.
    destruct (unmatched_file_skipped_or_rejected Page Strings web "/web" fresh_loader
                ["/web/index.html"; "/web/a.html"; "/web/both.html"; "/web/m.html"]
                "/web/google1a2b.html" ["/web/404.html"; "/web/z.html"] s plain_page)
      as (Hd & Hi & _ & H & Hend);
      [apply reaches_arriving; vm_compute; reflexivity
      |repeat split; vm_compute; reflexivity
      |vm_compute; reflexivity..|].
    assert (str_in "google" (filename_of "/web" "/web/google1a2b.html")
            || str_in "404" (filename_of "/web" "/web/google1a2b.html") = true) as Hname
      by (vm_compute; reflexivity).
    rewrite Hname in H. destruct H as (Hstep & Hrest).
    split; [intros r; apply Hd|]. split; [exact Hi|].
    split; [exact Hstep|]. split; [exact Hrest|].
    assert (dictionaries_allocated Page fresh_loader) as Halloc.
    { apply (bool_decide_unpack (dictionaries_allocated Page fresh_loader)).
      vm_compute. reflexivity. }
    assert (NoDup (List.map (filename_of "/web")
                     (["/web/index.html"; "/web/a.html"; "/web/both.html";
                       "/web/m.html"]
                      ++ "/web/google1a2b.html"
                      :: ["/web/404.html"; "/web/z.html"]))) as Hnodup.
    { apply (bool_decide_unpack _). vm_compute. reflexivity. }
    destruct (Hend Halloc Hnodup s_end) as (_ & _ & _ & Hnone);
      [vm_compute; reflexivity|].
    apply Hnone; [vm_compute; reflexivity..|].
    intros d Hd0. vm_compute in Hd0. discriminate.
  - intros s.
    destruct (unmatched_file_skipped_or_rejected Page Strings with_notes "/web" fresh_loader
                ["/web/index.html"; "/web/a.html"] "/web/notes.html" ["/web/m.html"]
                s plain_page)
      as (_ & _ & _ & H & _);
      [apply reaches_arriving; vm_compute; reflexivity
      |repeat split; vm_compute; reflexivity
      |vm_compute; reflexivity..|].
    assert (str_in "google" (filename_of "/web" "/web/notes.html")
            || str_in "404" (filename_of "/web" "/web/notes.html") = false) as Hname
      by (vm_compute; reflexivity).
    rewrite Hname in H. destruct H as (e & Hload & -> & Hin).
    split; [exact Hload | exact Hin].
Defined.

(** The first site at an earlier time, when [404.html] was an article. *)
Definition web_earlier : FileSystem Page :=
  directory "/web"
    [file "index.html" index_page; file "a.html" article_page;
     file "404.html" article_page].

(** C5 as stated fails on a loader that loaded the directory before:
    [404.html] now parses, satisfies none of the three schemas and is
    skipped without an error, yet after the load it is still in the
    article collection, under its own name and path, as the earlier load
    filed it. *)
Lemma skipped_file_still_among_articles :
  let s1 := snd (load_directory Page Strings web_earlier "/web" fresh_loader) in
  let r2 := load_directory Page Strings web "/web" s1 in
  "/web/404.html" ∈ glob_glob Page web "/web/*.html" /\
  parsed_as Page web "/web" "/web/404.html" = Parsed Page plain_page /\
  role_of Page web (schemas_of Page (self Page s1)) "/web" "/web/404.html" = None /\
  str_in "404" (filename_of "/web" "/web/404.html") = true /\
  fst r2 = Return tt /\
  deref Page (snd r2) (get_articles Page (snd r2)) !! "404.html"
  = Some (mk_WhitebearDocument "404.html" "/web/404.html" TYPE_ARTICLE
            (Some (get_menus Page (snd r2)))).
Proof.
  cbn zeta. split.
  - vm_compute. do 5 right. by left.
  - split_and!; vm_compute; reflexivity.
Qed.

Lemma unparsable_file_is_unrecognized_witness :
  let diagnostic := "Document is empty, line 1, column 1 (broken.html, line 1)" in
  let e := UnrecognizedFileException ("Html syntax error" +:+ newline +:+ diagnostic) in
  load_directory Page Strings with_broken "/web" fresh_loader
  = (Raise e,
     arriving with_broken "/web" fresh_loader ["/web/index.html"; "/web/a.html"]) /\
  str_in diagnostic (message_of e) = true /\
  kind_of e = kind_of (UnrecognizedFileException "Unrecognized file broken.html").
Proof.
  intros diagnostic e.
  destruct (unparsable_file_is_unrecognized Page Strings with_broken "/web" fresh_loader
              ["/web/index.html"; "/web/a.html"] "/web/broken.html" ["/web/m.html"]
              (arriving with_broken "/web" fresh_loader ["/web/index.html"; "/web/a.html"])
              diagnostic) as (e' & Hload & -> & Hin & Hkind).
  - apply reaches_arriving; vm_compute; reflexivity.
  - repeat split; vm_compute; reflexivity.
  - vm_compute; reflexivity.
  - split; [exact Hload|]. split; [exact Hin | exact Hkind].
Defined.

(** C6 as stated fails: the file that cannot be parsed and the file that
    parses but matches no schema end the load with exceptions of one and
    the same class, [UnrecognizedFileException], not with a syntax error
    of its own class. *)
Lemma syntax_failure_kind_not_distinct :
  exists e_broken e_notes,
    fst (load_directory Page Strings with_broken "/web" fresh_loader) = Raise e_broken /\
    fst (load_directory Page Strings with_notes "/web" fresh_loader) = Raise e_notes /\
    kind_of e_broken = kind_of e_notes /\
    kind_of e_broken <> KXMLSyntax.
Proof.
  eexists _, _. split_and!; [vm_compute; reflexivity..|done|done].
Qed.

Lemma inaccessible_file_keeps_partial_results_witness :
  let s := arriving with_read_only "/web" fresh_loader ["/web/index.html"; "/web/a.html"] in
  load_directory Page Strings with_read_only "/web" fresh_loader
  = (Raise (AccessException "Can not access file /web/b.html"), s) /\
  str_in "/web/b.html" "Can not access file /web/b.html" = true /\
  is_Some (deref Page s (get_articles Page s) !! "a.html") /\
  is_Some (get_index_page Page s).
Proof.
  intros s.
  destruct (inaccessible_file_keeps_partial_results Page Strings with_read_only "/web"
              fresh_loader ["/web/index.html"; "/web/a.html"] "/web/b.html" ["/web/m.html"] s)
    as (e & Hload & -> & Hin).
  - apply reaches_arriving; vm_compute; reflexivity.
  - vm_compute; reflexivity.
  - right. vm_compute; reflexivity.
  - split; [exact Hload|]. split; [exact Hin|].
    split; vm_compute; by eexists.
Defined.

(** C2 as stated fails: with one read-only file in an otherwise valid
    directory the load does end with the access error naming the file,
    but the article filed before it and the index document are still in
    the loader afterwards. *)
Lemma read_only_file_leaves_documents :
  let s' := snd (load_directory Page Strings with_read_only "/web" fresh_loader) in
  fst (load_directory Page Strings with_read_only "/web" fresh_loader)
  = Raise (AccessException "Can not access file /web/b.html") /\
  deref Page s' (get_articles Page s') !! "a.html"
  = Some (mk_WhitebearDocument "a.html" "/web/a.html" TYPE_ARTICLE
            (Some (get_menus Page s'))) /\
  get_index_page Page s'
  = Some (mk_WhitebearDocument "index.html" "/web/index.html" TYPE_INDEX None) /\
  ~ (deref Page s' (get_articles Page s') = ∅ /\
     deref Page s' (get_menus Page s') = ∅ /\
     get_index_page Page s' = None).
Proof.
  cbn zeta. split_and!; [vm_compute; reflexivity..|].
  intros (_ & _ & Hindex). vm_compute in Hindex. discriminate.
Qed.

Lemma index_gate_failures_witness :
  load_directory Page Strings no_index "/empty" fresh_loader
  = (Raise (FileNotFoundError "Missing index.html in /empty"),
     with_self Page (set_directory_path Page "/empty") fresh_loader) /\
  load_directory Page Strings foreign "/foreign" fresh_loader
  = (Raise (IndexError ("Not a whitebear directory" +:+ newline +:+ "not an index")),
     validated Page [schema_index] plain_page
       (with_self Page (set_directory_path Page "/foreign") fresh_loader)) /\
  kind_of (FileNotFoundError "Missing index.html in /empty")
  <> kind_of (IndexError ("Not a whitebear directory" +:+ newline +:+ "not an index")).
Proof.
  split; [|split].
  - destruct (index_gate_failures Page Strings no_index "/empty" fresh_loader)
      as (H & _ & _); [vm_compute; reflexivity..|].
    apply H. vm_compute; reflexivity.
  - destruct (index_gate_failures Page Strings foreign "/foreign" fresh_loader)
      as (_ & H & _); [vm_compute; reflexivity..|].
    apply (H plain_page); vm_compute; reflexivity.
  - destruct (index_gate_failures Page Strings no_index "/empty" fresh_loader)
      as (_ & _ & H); [vm_compute; reflexivity..|].
    apply H.
Defined.

(** C7 as stated fails for a directory that is not writable: the access
    check comes first, so a missing [index.html] there ends the load with
    [AccessException], not with [FileNotFoundError]. *)
Lemma missing_index_in_read_only_directory :
  os_path_exists Page read_only_directory (os_path_join "/locked" "index.html") = false /\
  fst (load_directory Page Strings read_only_directory "/locked" fresh_loader)
  = Raise (AccessException "Can not access directory") /\
  (forall e, fst (load_directory Page Strings read_only_directory "/locked" fresh_loader)
             = Raise e -> kind_of e <> KFileNotFound).
Proof.
  split_and!; [vm_compute; reflexivity..|].
  intros e He. vm_compute in He. by injection He as <-.
Qed.

Lemma load_directory_stores_path_first_witness :
  get_directory Page
    (snd (load_directory Page Strings read_only_directory "/locked"
            (snd (load_directory Page Strings web "/web" fresh_loader))))
  = "/locked" /\
  load_directory Page Strings read_only_directory "/locked"
    (snd (load_directory Page Strings web "/web" fresh_loader))
  = (Raise (AccessException "Can not access directory"),
     with_self Page (set_directory_path Page "/locked")
       (snd (load_directory Page Strings web "/web" fresh_loader))).
Proof.
  destruct (load_directory_stores_path_first Page Strings read_only_directory "/locked"
              (snd (load_directory Page Strings web "/web" fresh_loader))) as (Hpath & Hfail).
  split; [exact Hpath|]. apply Hfail. right. vm_compute; reflexivity.
Defined.

Lemma reload_keeps_previous_documents_witness :
  let s := snd (load_directory Page Strings web "/web" fresh_loader) in
  let s' := snd (load_directory Page Strings other "/other" s) in
  (get_articles Page s' = get_articles Page s /\
   get_menus Page s' = get_menus Page s /\
   deref Page s' (get_articles Page s) !! "a.html"
   = Some (mk_WhitebearDocument "a.html" "/web/a.html" TYPE_ARTICLE
             (Some (get_menus Page s))) /\
   is_Some (deref Page s' (get_menus Page s) !! "m.html") /\
   (is_Some (deref Page s (get_articles Page s) !! "c.html") \/
    "c.html" ∈ List.map (filename_of "/other") (glob_glob Page other "/other/*.html")) /\
   is_Some (get_index_page Page s')) /\
  (deref Page s' (get_articles Page s) !! "c.html"
   = Some (mk_WhitebearDocument "c.html" "/other/c.html" TYPE_ARTICLE
             (Some (get_menus Page s))) /\
   deref Page s' (get_menus Page s) !! "n.html"
   = Some (mk_WhitebearDocument "n.html" "/other/n.html" TYPE_MENU None) /\
   get_index_page Page s'
   = Some (mk_WhitebearDocument "index.html" "/other/index.html" TYPE_INDEX None) /\
   (exists f, f ∈ glob_glob Page other "/other/*.html" /\
      filename_of "/other" f = filename_of "/other" "/other/c.html" /\
      deref Page s' (get_articles Page s) !! filename_of "/other" "/other/c.html"
      = Some (document_of Page other "/other" f TYPE_ARTICLE (Some (get_menus Page s))))).
Proof.
  intros s s'.
  destruct (reload_keeps_previous_documents Page Strings other "/other" s)
    as ((Ha & Hm & Hkeep & Hdom & Hnew & Hindex) & Hmerge).
  split.
  { split; [exact Ha|]. split; [exact Hm|]. split; [|split; [|split]].
    - apply Hkeep; [by left|vm_compute; reflexivity|].
      vm_compute. intros Hin.
      repeat (apply elem_of_cons in Hin as [Hin|Hin]; [discriminate|]).
      by apply elem_of_nil in Hin.
    - apply Hdom; [by right|]. vm_compute. by eexists.
    - apply Hnew; [by left|]. vm_compute. by eexists.
    - apply Hindex. vm_compute. by eexists. }
  destruct Hmerge as (Hfa & Hfm & Hfi & Harticle & _ & _).
  { apply (bool_decide_unpack (dictionaries_allocated Page s)). vm_compute. reflexivity. }
  { vm_compute. reflexivity. }
  split; [etransitivity; [apply Hfa|vm_compute; reflexivity]|].
  split; [etransitivity; [apply Hfm|vm_compute; reflexivity]|].
  split; [etransitivity; [apply Hfi|vm_compute; reflexivity]|].
  apply Harticle; [|vm_compute; reflexivity].
  vm_compute. right. by left.
Defined.

(** C4 as stated fails: after loading [/web] and then [/other] with the
    same loader, the article and menu dictionaries still hold the
    documents of [/web], under names the second pass never enumerated. *)
Lemma reload_merges_sessions :
  let s1 := snd (load_directory Page Strings web "/web" fresh_loader) in
  let s2 := snd (load_directory Page Strings other "/other" s1) in
  let names := List.map (filename_of "/other") (glob_glob Page other "/other/*.html") in
  fst (load_directory Page Strings web "/web" fresh_loader) = Return tt /\
  fst (load_directory Page Strings other "/other" s1) = Return tt /\
  deref Page s2 (get_articles Page s2) !! "a.html"
  = Some (mk_WhitebearDocument "a.html" "/web/a.html" TYPE_ARTICLE
            (Some (get_menus Page s2))) /\
  deref Page s2 (get_menus Page s2) !! "m.html"
  = Some (mk_WhitebearDocument "m.html" "/web/m.html" TYPE_MENU None) /\
  ("a.html" ∉ names) /\ ("m.html" ∉ names).
Proof.
  cbn zeta. split_and!; [vm_compute; reflexivity..| |].
  - vm_compute; intros Hin.
    repeat (apply elem_of_cons in Hin as [Hin|Hin]; [discriminate|]).
    by apply elem_of_nil in Hin.
  - vm_compute; intros Hin.
    repeat (apply elem_of_cons in Hin as [Hin|Hin]; [discriminate|]).
    by apply elem_of_nil in Hin.
Qed.

Lemma articles_reference_menu_dictionary_witness :
  let s' := snd (load_directory Page Strings web "/web" fresh_loader) in
  let a := mk_WhitebearDocument "a.html" "/web/a.html" TYPE_ARTICLE
             (Some (get_menus Page s')) in
  (deref Page s' (get_articles Page s') !! "a.html" = Some a /\
   doc_menus a = Some (get_menus Page s') /\
   menu_references Page s' a = Some (deref Page s' (get_menus Page s')) /\
   is_Some (deref Page s' (get_menus Page s') !! "m.html")) /\
  "m.html" ∈ List.map (filename_of "/web") (glob_glob Page web "/web/*.html").
Proof.
  intros s' a.
  destruct (articles_reference_menu_dictionary Page Strings web "/web" fresh_loader s')
    as (Hshare & Hfresh).
  - apply (bool_decide_unpack (articles_share_menus Page fresh_loader)).
    vm_compute. reflexivity.
  - vm_compute. reflexivity.
  - split.
    + assert (deref Page s' (get_articles Page s') !! "a.html" = Some a) as Ha
        by (vm_compute; reflexivity).
      destruct (Hshare _ _ Ha) as (H1 & H2).
      split; [exact Ha|]. split; [exact H1|]. split; [exact H2|].
      vm_compute. by eexists.
    + apply Hfresh; [vm_compute; reflexivity|]. vm_compute. by eexists.
Defined.

(** C3 as stated fails in its last part: on a loader that loaded [/web]
    before, the article [c.html] filed by a successful load of [/other]
    sees the menu [m.html] of [/web], which the second pass never
    enumerated. *)
Lemma menu_references_keep_earlier_menus :
  let s1 := snd (load_directory Page Strings web "/web" fresh_loader) in
  let s2 := snd (load_directory Page Strings other "/other" s1) in
  fst (load_directory Page Strings other "/other" s1) = Return tt /\
  exists article menus,
    deref Page s2 (get_articles Page s2) !! "c.html" = Some article /\
    doc_full_path article = "/other/c.html" /\
    menu_references Page s2 article = Some menus /\
    is_Some (menus !! "m.html") /\
    "m.html" ∉ List.map (filename_of "/other") (glob_glob Page other "/other/*.html").
Proof.
  cbn zeta. split; [vm_compute; reflexivity|].
  eexists _, _. split_and!; [vm_compute; reflexivity..|vm_compute; by eexists|].
  vm_compute; intros Hin;
    repeat (apply elem_of_cons in Hin as [Hin|Hin]; [discriminate|]);
    by apply elem_of_nil in Hin.
Qed.


(** *** Further runs *)

(** A site whose [index.html] lxml rejects, and the first site reached
    through a relative path. *)
Definition with_broken_index : FileSystem Page :=
  directory "/web"
    [{| file_name := "index.html"; readable := true; writable := true;
        content := SyntaxFailure Page "Document is empty, line 1, column 1 (index.html, line 1)" |};
     file "a.html" article_page].

Definition relative_web : FileSystem Page :=
  directory "web"
    [file "index.html" index_page; file "a.html" article_page;
     file "m.html" menu_page].

Lemma _is_white_bear_directory_verdict_witness :
  fst (_is_white_bear_directory Page Strings web "/web" fresh_loader) = Return true /\
  fst (_is_white_bear_directory Page Strings foreign "/foreign" fresh_loader)
  <> Return true.
Proof.
  split.
  - apply (_is_white_bear_directory_verdict Page Strings web "/web" fresh_loader).
    vm_compute; reflexivity.
  - intros H.
    apply (_is_white_bear_directory_verdict Page Strings foreign "/foreign" fresh_loader)
      in H.
    vm_compute in H. discriminate.
Defined.

Lemma unparsable_index_is_index_error_witness :
  let message := "Html syntax error" +:+ newline +:+
                 "Document is empty, line 1, column 1 (index.html, line 1)" in
  load_directory Page Strings with_broken_index "/web" fresh_loader
  = (Raise (IndexError message),
     with_self Page (set_directory_path Page "/web") fresh_loader) /\
  _prepare_documents_file Page Strings with_broken_index "/web" "/web/index.html"
    fresh_loader
  = (Raise (UnrecognizedFileException message), fresh_loader).
Proof.
  intros message.
  destruct (unparsable_index_is_index_error Page Strings with_broken_index "/web"
              fresh_loader "Document is empty, line 1, column 1 (index.html, line 1)")
    as (Hgate & Hloop); [vm_compute; reflexivity..|].
  split; [exact Hgate|].
  apply Hloop; [repeat split; vm_compute; reflexivity | vm_compute; reflexivity].
Defined.

(** A site with a [404.html] that has no content. *)
Definition with_empty : FileSystem Page :=
  directory "/web"
    [file "index.html" index_page; file "a.html" article_page;
     {| file_name := "404.html"; readable := true; writable := true;
        content := ParsedRootless Page
                     "Input object has no document: lxml.etree._ElementTree" |}].

Lemma load_directory_succeeds_iff_witness :
  fst (load_directory Page Strings web "/web" fresh_loader) = Return tt /\
  forallb (accepts Page with_notes (schemas_of Page (self Page fresh_loader)) "/web")
    (glob_glob Page with_notes "/web/*.html") = false /\
  forallb (accepts Page with_empty (schemas_of Page (self Page fresh_loader)) "/web")
    (glob_glob Page with_empty "/web/*.html") = false /\
  fst (load_directory Page Strings with_empty "/web" fresh_loader)
  = Raise (ValueError "Input object has no document: lxml.etree._ElementTree").
Proof.
  split; [|split; [|split]].
  - apply (load_directory_succeeds_iff Page Strings web "/web" fresh_loader).
    split; vm_compute; reflexivity.
  - apply not_true_is_false. intros Hall.
    assert (fst (load_directory Page Strings with_notes "/web" fresh_loader) = Return tt)
      as Hload.
    { apply (load_directory_succeeds_iff Page Strings with_notes "/web" fresh_loader).
      split; [vm_compute; reflexivity | exact Hall]. }
    vm_compute in Hload. discriminate.
  - apply not_true_is_false. intros Hall.
    assert (fst (load_directory Page Strings with_empty "/web" fresh_loader) = Return tt)
      as Hload.
    { apply (load_directory_succeeds_iff Page Strings with_empty "/web" fresh_loader).
      split; [vm_compute; reflexivity | exact Hall]. }
    vm_compute in Hload. discriminate.
  - vm_compute. reflexivity.
Defined.

(** The store after [/web] was loaded, and a second loader constructed
    in that store. *)
Definition loaded : State Page :=
  snd (load_directory Page Strings web "/web" fresh_loader).

Definition second_loader : State Page :=
  DirectoryLoader.__init__ Page Fetch_schema (heap Page loaded).

Lemma load_directory_writes_own_dictionaries_only_witness :
  let after := snd (load_directory Page Strings other "/other" second_loader) in
  dom (heap Page after) = dom (heap Page second_loader) /\
  heap Page after !! get_articles Page loaded
  = heap Page second_loader !! get_articles Page loaded /\
  is_Some (deref Page after (get_articles Page loaded) !! "a.html").
Proof.
  intros after.
  destruct (load_directory_writes_own_dictionaries_only Page Strings other "/other"
              second_loader) as (Hdom & Hother).
  split; [exact Hdom|]. split.
  - apply Hother; vm_compute; discriminate.
  - vm_compute. by eexists.
Defined.

Lemma __init___makes_empty_separate_loader_witness :
  get_articles Page second_loader <> get_menus Page second_loader /\
  (get_articles Page second_loader ∉ dom (heap Page loaded)) /\
  heap Page second_loader !! get_articles Page loaded
  = heap Page loaded !! get_articles Page loaded /\
  heap Page second_loader !! get_menus Page loaded
  = heap Page loaded !! get_menus Page loaded.
Proof.
  destruct (__init___makes_empty_separate_loader Page Fetch_schema (heap Page loaded))
    as (_ & _ & _ & _ & Hne & Ha & _ & Hold).
  split; [exact Hne|]. split; [exact Ha|].
  split; apply Hold; apply elem_of_dom; vm_compute; by eexists.
Defined.

Lemma loaders_are_independent_witness :
  let after := snd (load_directory Page Strings other "/other" second_loader) in
  deref Page after (get_articles Page loaded) = deref Page loaded (get_articles Page loaded) /\
  deref Page after (get_menus Page loaded) = deref Page loaded (get_menus Page loaded) /\
  is_Some (deref Page after (get_articles Page after) !! "c.html") /\
  deref Page after (get_articles Page after) !! "a.html" = None.
Proof.
  intros after.
  destruct (loaders_are_independent Page Strings Fetch_schema other "/other" loaded)
    as (Ha & Hm); [vm_compute; by eexists..|].
  split; [exact Ha|]. split; [exact Hm|].
  split; [vm_compute; by eexists | vm_compute; reflexivity].
Defined.

Lemma load_directory_keeps_well_filed_witness :
  well_filed Page (snd (load_directory Page Strings web "/web" fresh_loader)) /\
  well_filed Page (snd (load_directory Page Strings with_read_only "/web" loaded)).
Proof.
  split.
  - apply (load_directory_keeps_well_filed Page Strings web "/web" fresh_loader).
    apply (bool_decide_unpack (well_filed Page fresh_loader)). vm_compute. reflexivity.
  - apply (load_directory_keeps_well_filed Page Strings with_read_only "/web" loaded).
    apply (bool_decide_unpack (well_filed Page loaded)). vm_compute. reflexivity.
Defined.

Lemma load_directory_files_by_role_witness :
  let s' := snd (load_directory Page Strings other "/other" loaded) in
  deref Page s' (get_articles Page s') !! "c.html"
  = Some (mk_WhitebearDocument "c.html" "/other/c.html" TYPE_ARTICLE
            (Some (get_menus Page s'))) /\
  deref Page s' (get_articles Page s') !! "a.html"
  = deref Page loaded (get_articles Page loaded) !! "a.html" /\
  deref Page s' (get_menus Page s') !! "n.html"
  = Some (mk_WhitebearDocument "n.html" "/other/n.html" TYPE_MENU None) /\
  get_index_page Page s'
  = Some (mk_WhitebearDocument "index.html" "/other/index.html" TYPE_INDEX None).
Proof.
  intros s'.
  destruct (load_directory_files_by_role Page Strings other "/other" loaded s')
    as (Ha & Hm & Hi).
  - apply (bool_decide_unpack (dictionaries_allocated Page loaded)).
    vm_compute. reflexivity.
  - vm_compute. reflexivity.
  - split; [|split; [|split]].
    + rewrite (Ha "c.html"). vm_compute. reflexivity.
    + rewrite (Ha "a.html"). vm_compute. reflexivity.
    + rewrite (Hm "n.html"). vm_compute. reflexivity.
    + rewrite Hi. vm_compute. reflexivity.
Defined.

(** The first site reached through a relative path, with a file three
    levels down. *)
Definition nested_web : FileSystem Page :=
  {| os_access := fun p m => true;
     os_path_exists := fun p => true;
     os_path_isfile := fun p => String.eqb p "web/web/a.html";
     os_path_realpath := fun p => "/home/bear/" +:+ p;
     glob_glob := fun pattern =>
       if String.eqb pattern "web/*.html" then ["web/a.html"] else [];
     html_parse := fun p =>
       if String.eqb p "web/web/web/a.html" then Parsed Page article_page
       else if String.eqb p "web/web/a.html" then Parsed Page menu_page
       else Parsed Page plain_page |}.

Lemma listed_names_are_joined_again_witness :
  _prepare_documents_file Page Strings web "/web" "/web/a.html" fresh_loader
  = (Return tt,
     dict_setitem Page (get_articles Page fresh_loader) "a.html"
       (mk_WhitebearDocument "a.html" "/web/a.html" TYPE_ARTICLE
          (Some (get_menus Page fresh_loader)))
       (validated Page [schema_article] article_page fresh_loader)) /\
  _prepare_documents_file Page Strings relative_web "web" "web/a.html" fresh_loader
  = (Return tt, fresh_loader) /\
  _prepare_documents_file Page Strings nested_web "web" "web/a.html" fresh_loader
  = (Return tt,
     dict_setitem Page (get_articles Page fresh_loader) "a.html"
       (mk_WhitebearDocument "a.html" "/home/bear/web/web/a.html" TYPE_ARTICLE
          (Some (get_menus Page fresh_loader)))
       (validated Page [schema_article] article_page fresh_loader)).
Proof.
  split; [|split].
  - destruct (listed_names_are_joined_again Page Strings web "/web" fresh_loader)
      as (Habs & _).
    apply (Habs "/web/a.html" article_page); vm_compute; reflexivity.
  - destruct (listed_names_are_joined_again Page Strings relative_web "web" fresh_loader)
      as (_ & Hrel).
    destruct (Hrel ltac:(discriminate) eq_refl eq_refl "a.html") as (Hskip & _).
    apply Hskip. vm_compute; reflexivity.
  - destruct (listed_names_are_joined_again Page Strings nested_web "web" fresh_loader)
      as (_ & Hrel).
    destruct (Hrel ltac:(discriminate) eq_refl eq_refl "a.html") as (_ & _ & Hfiled & _).
    apply (Hfiled article_page); vm_compute; reflexivity.
Defined.

Lemma load_directory_skips_what_is_not_a_file_witness :
  let r := load_directory Page Strings relative_web "web" fresh_loader in
  glob_glob Page relative_web "web/*.html"
  = ["web/index.html"; "web/a.html"; "web/m.html"] /\
  fst r = Return tt /\
  heap Page (snd r) = heap Page fresh_loader /\
  get_index_page Page (snd r) = None.
Proof.
  intros r.
  destruct (load_directory_skips_what_is_not_a_file Page Strings relative_web "web"
              fresh_loader) as (Hok & Hheap & Hindex & _).
  - vm_compute; reflexivity.
  - intros file Hin. vm_compute in Hin.
    repeat (apply elem_of_cons in Hin as [->|Hin]; [vm_compute; reflexivity|]).
    by apply elem_of_nil in Hin.
  - split; [vm_compute; reflexivity|]. split; [exact Hok|].
    split; [exact Hheap | exact Hindex].
Defined.


Lemma failed_gate_keeps_documents_under_new_path_witness :
  let r := load_directory Page Strings foreign "/foreign" loaded in
  fst r = Raise (IndexError ("Not a whitebear directory" +:+ newline +:+ "not an index")) /\
  get_directory Page (snd r) = "/foreign" /\
  heap Page (snd r) = heap Page loaded /\
  is_Some (deref Page (snd r) (get_articles Page (snd r)) !! "a.html") /\
  get_index_page Page (snd r)
  = Some (mk_WhitebearDocument "index.html" "/web/index.html" TYPE_INDEX None).
Proof.
  intros r.
  destruct (failed_gate_keeps_documents_under_new_path Page Strings foreign "/foreign"
              loaded) as (_ & Hpath & _ & _ & Hheap & Hindex);
    [vm_compute; reflexivity|].
  split; [vm_compute; reflexivity|]. split; [exact Hpath|]. split; [exact Hheap|].
  split; [vm_compute; by eexists|].
  etransitivity; [exact Hindex | vm_compute; reflexivity].
Defined.

End Site.

(** ** Concrete images, used to run the self-check *)

Module Gallery.
Import Document.

Definition Numbers : NumberConstants :=
  {| article_image_title_min := 5; article_image_title_max := 30;
     article_image_alt_min := 5; article_image_alt_max := 40 |}.

Definition Strings : StringConstants :=
  {| seo_error_link_title_length := "Link title length is out of bounds";
     seo_error_default_value := "Default value has not been changed";
     seo_error_image_alt_length := "Image alt length is out of bounds";
     label_article_image_link_title := "Link title";
     label_article_image_alt := "Image alt" |}.

Definition image (title alt : string) : BaseImage unit :=
  Document.__init__ unit title alt "/web/images/original/bear.png"
    "/web/images/thumbnails/bear.png" "bear.png" "bear_thumbnail.png".

(** An image as an earlier, failed check left it: both messages set and
    the colour red. *)
Definition flagged (title alt : string) : BaseImage unit :=
  set_status_color unit RED
    (set_image_alt_error_message unit "Default value has not been changed"
       (set_link_title_error_message unit "Link title length is out of bounds"
          (image title alt))).

Lemma link_title_validation_witness :
  (let r := seo_test_self unit Numbers Strings (image "Link title" "A brown bear") in
   snd r = false /\ get_status_color unit (fst r) = Some RED /\
   snd (get_link_title unit (fst r)) = "Default value has not been changed") /\
  (let r := seo_test_self unit Numbers Strings (image "Bear" "A brown bear") in
   snd r = false /\ get_status_color unit (fst r) = Some RED /\
   snd (get_link_title unit (fst r)) = "Link title length is out of bounds") /\
  (let r := seo_test_self unit Numbers Strings (image "Brown bear" "A brown bear") in
   snd (get_link_title unit (fst r)) = EmptyString /\
   snd r = true /\ get_status_color unit (fst r) = Some NullColour /\
   snd (get_image_alt unit (fst r)) = EmptyString) /\
  (let r := seo_test_self unit Numbers Strings (image "Brown bear" "Image alt") in
   snd (get_link_title unit (fst r)) = EmptyString /\
   snd r = false /\ get_status_color unit (fst r) = Some RED).
Proof.
  split; [|split; [|split]]; cbn zeta.
  - destruct (link_title_validation unit Numbers Strings (image "Link title" "A brown bear"))
      as (H & _ & _).
    apply H. vm_compute; reflexivity.
  - destruct (link_title_validation unit Numbers Strings (image "Bear" "A brown bear"))
      as (_ & H & _).
    apply H; [vm_compute; reflexivity | vm_compute; discriminate].
  - destruct (link_title_validation unit Numbers Strings (image "Brown bear" "A brown bear"))
      as (_ & _ & H).
    destruct H as (Hmsg & Hpass & _);
      [vm_compute; split; discriminate | vm_compute; discriminate |].
    split; [exact Hmsg|]. apply Hpass.
    split; [vm_compute; split; discriminate | vm_compute; discriminate].
  - destruct (link_title_validation unit Numbers Strings (image "Brown bear" "Image alt"))
      as (_ & _ & H).
    destruct H as (Hmsg & _ & Hfail);
      [vm_compute; split; discriminate | vm_compute; discriminate |].
    split; [exact Hmsg|]. apply Hfail.
    intros [_ Hne]. apply Hne. vm_compute; reflexivity.
Defined.

(** C8 as stated fails in its last part: a link title within the bounds
    and different from the placeholder does not make the check pass when
    the image alt is still its placeholder; the call returns false and
    the colour is red, although the link-title message is empty. *)
Lemma link_title_ok_but_check_fails :
  let self := image "Brown bear" "Image alt" in
  let r := seo_test_self unit Numbers Strings self in
  title_in_bounds unit Numbers self /\
  _link_title unit self <> label_article_image_link_title Strings /\
  snd (get_link_title unit (fst r)) = EmptyString /\
  snd r = false /\
  get_status_color unit (fst r) = Some RED.
Proof.
  cbn zeta. split_and!;
    [vm_compute; split; discriminate | vm_compute; discriminate
    | vm_compute; reflexivity..].
Qed.

Lemma seo_test_self_recomputes_witness :
  let a := flagged "Brown bear" "A brown bear" in
  let b := image "Brown bear" "A brown bear" in
  let a' := fst (seo_test_self unit Numbers Strings a) in
  let b' := fst (seo_test_self unit Numbers Strings b) in
  get_status_color unit a = Some RED /\
  snd (seo_test_self unit Numbers Strings a) = snd (seo_test_self unit Numbers Strings b) /\
  get_link_title unit a' = get_link_title unit b' /\
  get_image_alt unit a' = get_image_alt unit b' /\
  get_status_color unit a' = get_status_color unit b' /\
  seo_test_self unit Numbers Strings a' = seo_test_self unit Numbers Strings a /\
  snd (get_link_title unit a') = EmptyString /\ snd (get_image_alt unit a') = EmptyString /\
  get_status_color unit a' = Some NullColour.
Proof.
  intros a b a' b'.
  destruct (seo_test_self_recomputes unit Numbers Strings a b)
    as (H1 & H2 & H3 & H4 & H5 & H6); [vm_compute; reflexivity..|].
  split; [vm_compute; reflexivity|].
  split; [exact H1|]. split; [exact H2|]. split; [exact H3|].
  split; [exact H4|]. split; [exact H5|].
  apply H6. vm_compute; reflexivity.
Defined.


Lemma image_alt_validation_witness :
  (let r := seo_test_self unit Numbers Strings (image "Brown bear" "Image alt") in
   snd r = false /\ get_status_color unit (fst r) = Some RED /\
   snd (get_image_alt unit (fst r)) = "Default value has not been changed") /\
  (let r := seo_test_self unit Numbers Strings (image "Brown bear" "Bear") in
   snd r = false /\ get_status_color unit (fst r) = Some RED /\
   snd (get_image_alt unit (fst r)) = "Image alt length is out of bounds") /\
  (let r := seo_test_self unit Numbers Strings (image "Link title" "A brown bear") in
   snd (get_image_alt unit (fst r)) = EmptyString /\ snd r = false).
Proof.
  split; [|split]; cbn zeta.
  - destruct (image_alt_validation unit Numbers Strings (image "Brown bear" "Image alt"))
      as (H & _ & _).
    apply H. vm_compute; reflexivity.
  - destruct (image_alt_validation unit Numbers Strings (image "Brown bear" "Bear"))
      as (_ & H & _).
    apply H; [|vm_compute; discriminate].
    intros [Hlow _]. vm_compute in Hlow. by apply Hlow.
  - destruct (image_alt_validation unit Numbers Strings (image "Link title" "A brown bear"))
      as (_ & _ & H).
    split; [|vm_compute; reflexivity].
    apply H. split; [vm_compute; split; discriminate | vm_compute; discriminate].
Defined.

Lemma seo_test_self_result_witness :
  snd (seo_test_self unit Numbers Strings (image "Brown bear" "A brown bear")) = true /\
  ~ alt_in_bounds unit Numbers (flagged "Brown bear" "Bear").
Proof.
  split.
  - apply (seo_test_self_result unit Numbers Strings (image "Brown bear" "A brown bear")).
    split; [vm_compute; split; discriminate|].
    split; [vm_compute; discriminate|].
    split; [vm_compute; split; discriminate | vm_compute; discriminate].
  - intros Halt.
    assert (snd (seo_test_self unit Numbers Strings (flagged "Brown bear" "Bear")) = true)
      as Hresult.
    { apply (seo_test_self_result unit Numbers Strings (flagged "Brown bear" "Bear")).
      split; [vm_compute; split; discriminate|].
      split; [vm_compute; discriminate|].
      split; [exact Halt | vm_compute; discriminate]. }
    vm_compute in Hresult. discriminate.
Defined.

Lemma seo_messages_are_per_field_witness :
  snd (get_link_title unit
         (fst (seo_test_self unit Numbers Strings (image "Bear" "A brown bear"))))
  = snd (get_link_title unit
           (fst (seo_test_self unit Numbers Strings (flagged "Bear" "Image alt")))) /\
  snd (get_image_alt unit
         (fst (seo_test_self unit Numbers Strings (image "Bear" "A brown bear"))))
  = snd (get_image_alt unit
           (fst (seo_test_self unit Numbers Strings (flagged "Link title" "A brown bear")))).
Proof.
  split.
  - apply (seo_messages_are_per_field unit Numbers Strings
             (image "Bear" "A brown bear") (flagged "Bear" "Image alt")).
    vm_compute; reflexivity.
  - apply (seo_messages_are_per_field unit Numbers Strings
             (image "Bear" "A brown bear") (flagged "Link title" "A brown bear")).
    vm_compute; reflexivity.
Defined.

End Gallery.
